(** * binance_stream_manager: the stream supervisor and its cache

    A shallow embedding of [binance_trade_bot/binance_stream_manager.py]:
    the cache ([BinanceCache]), the order record ([BinanceOrder]), the bounded
    retry ([retry]), the two start operations and the two message handlers of
    [BinanceStreamManager], followed by the properties of the specification.

    Python objects are mutated in place; here every operation takes the
    manager and gives back an [outcome] that carries the manager as it is
    when the call ends, whether it returns or raises. *)

From Stdlib Require Import Ascii.
From stdpp Require Import gmap strings list fin_maps.

Open Scope string_scope.
Open Scope list_scope.
#[local] Set Warnings "-register-all".

(** ** Python values of a decoded stream message

    The venue's payloads are JSON: objects, arrays, strings and integers are
    the values its schema uses.  An object is kept as the list of its fields,
    each name once, in wire order. *)

Inductive value : Type :=
  | VStr (s : string)
  | VInt (z : Z)
  | VList (items : list value)
  | VObj (fields : list (string * value)).

(** Hashable values, the keys of the cache's dicts. *)
Inductive pykey : Type :=
  | KStr (s : string)
  | KInt (z : Z).

(** The exceptions the handlers can meet. [TransportError] stands for whatever
    [Exception] the socket library raises from a start request;
    [KeyboardInterrupt] and [SystemExit] are the exceptions that are not
    [Exception]s. *)
Inductive exn : Type :=
  | KeyError (k : pykey)
  | TypeError
  | ValueError (s : string)
  | OverflowError
  | TransportError (cause : string)
  | KeyboardInterrupt
  | SystemExit.

(** [isinstance(e, Exception)], what [except Exception] catches. *)
Definition is_exception (e : exn) : bool :=
  match e with
  | KeyboardInterrupt | SystemExit => false
  | _ => true
  end.

#[global] Instance pykey_eq_dec : EqDecision pykey.
Proof. solve_decision. Defined.

Definition pykey_to_sum (k : pykey) : string + Z :=
  match k with KStr s => inl s | KInt z => inr z end.

Definition pykey_of_sum (x : string + Z) : pykey :=
  match x with inl s => KStr s | inr z => KInt z end.

#[global] Instance pykey_countable : Countable pykey.
Proof.
  refine (inj_countable' pykey_to_sum pykey_of_sum _).
  intros []; reflexivity.
Defined.

#[global] Instance exn_eq_dec : EqDecision exn.
Proof. solve_decision. Defined.

(** A computation that may raise: [inl e] raises [e], [inr a] yields [a]. *)
Definition raises (A : Type) : Type := exn + A.

Definition rbind {A B : Type} (c : raises A) (k : A -> raises B) : raises B :=
  match c with
  | inl e => inl e
  | inr a => k a
  end.

Notation "x <~ c ;; k" := (rbind c (fun x => k))
  (at level 100, c at next level, right associativity).

(** [d.get(k)] on the field list of an object. *)
Fixpoint field (fields : list (string * value)) (k : string) : option value :=
  match fields with
  | [] => None
  | (k', v) :: rest => if decide (k' = k) then Some v else field rest k
  end.

(** [v[k]] with a string subscript: only an object can be subscripted by a
    string, and a missing key is a [KeyError]. *)
Definition getitem (v : value) (k : string) : raises value :=
  match v with
  | VObj fields =>
      match field fields k with
      | Some x => inr x
      | None => inl (KeyError (KStr k))
      end
  | _ => inl TypeError
  end.

(** [v == s] for a string literal [s]. *)
Definition eq_str (v : value) (s : string) : bool :=
  match v with
  | VStr s' => bool_decide (s' = s)
  | _ => false
  end.

Fixpoint has_char (c : ascii) (s : string) : bool :=
  match s with
  | EmptyString => false
  | String c' rest => if decide (c' = c) then true else has_char c rest
  end.

Fixpoint chars (s : string) : list value :=
  match s with
  | EmptyString => []
  | String c rest => VStr (String c EmptyString) :: chars rest
  end.

(** ["e" in v]: key membership for an object, element membership for an
    array, substring test for a string, a [TypeError] for an integer. *)
Definition contains_e (v : value) : raises bool :=
  match v with
  | VObj fields => inr (bool_decide (is_Some (field fields "e")))
  | VList items => inr (existsb (fun x => eq_str x "e") items)
  | VStr s => inr (has_char "e"%char s)
  | VInt _ => inl TypeError
  end.

(** [for x in v]: the elements of an array, the keys of an object, the
    characters of a string. *)
Definition iter (v : value) : raises (list value) :=
  match v with
  | VList items => inr items
  | VObj fields => inr (map (fun kv => VStr (fst kv)) fields)
  | VStr s => inr (chars s)
  | VInt _ => inl TypeError
  end.

(** Using a value as a dict key: arrays and objects are unhashable. *)
Definition hash_key (v : value) : raises pykey :=
  match v with
  | VStr s => inr (KStr s)
  | VInt z => inr (KInt z)
  | VList _ | VObj _ => inl TypeError
  end.

(** ** Floats

    [float(...)] is Python's; the development is parametric in the float type
    and in the parser: [float_of_string s = None] is the [ValueError] of a
    string that is not a number, [float_of_int z = None] the [OverflowError]
    of an integer too large for a float. *)
Class PyFloat (F : Type) : Type := {
  float_of_string : string -> option F;
  float_of_int : Z -> option F
}.

Section Cache.
Context {F : Type} `{PyFloat F}.

Definition float (v : value) : raises F :=
  match v with
  | VStr s =>
      match float_of_string s with
      | Some x => inr x
      | None => inl (ValueError s)
      end
  | VInt z =>
      match float_of_int z with
      | Some x => inr x
      | None => inl OverflowError
      end
  | VList _ | VObj _ => inl TypeError
  end.

(** [BinanceOrder.__init__]: the attributes are read off the event in the
    order of the assignments; the first lookup or parse that fails raises. *)
Record BinanceOrder : Type := {
  event : value;
  symbol : value;
  side : value;
  order_type : value;
  id : value;
  cumulative_quote_qty : F;
  status : value;
  price : F;
  transaction_time : value
}.

Definition new_BinanceOrder (ev : value) : raises BinanceOrder :=
  s <~ getitem ev "s" ;;
  sd <~ getitem ev "S" ;;
  o <~ getitem ev "o" ;;
  i <~ getitem ev "i" ;;
  z <~ (v <~ getitem ev "Z" ;; float v) ;;
  x <~ getitem ev "X" ;;
  p <~ (v <~ getitem ev "p" ;; float v) ;;
  t <~ getitem ev "T" ;;
  inr {| event := ev; symbol := s; side := sd; order_type := o; id := i;
         cumulative_quote_qty := z; status := x; price := p;
         transaction_time := t |}.

Record BinanceCache : Type := {
  ticker_values : gmap pykey F;
  balances : gmap pykey F;
  non_existent_tickers : gset string;
  orders : gmap pykey BinanceOrder
}.

(** The class attributes of [BinanceCache]: four empty collections. *)
Definition empty_cache : BinanceCache :=
  {| ticker_values := ∅; balances := ∅; non_existent_tickers := ∅;
     orders := ∅ |}.

Definition with_ticker_values (d : gmap pykey F) (c : BinanceCache) : BinanceCache :=
  {| ticker_values := d; balances := balances c;
     non_existent_tickers := non_existent_tickers c; orders := orders c |}.

Definition with_balances (d : gmap pykey F) (c : BinanceCache) : BinanceCache :=
  {| ticker_values := ticker_values c; balances := d;
     non_existent_tickers := non_existent_tickers c; orders := orders c |}.

Definition with_orders (d : gmap pykey BinanceOrder) (c : BinanceCache) : BinanceCache :=
  {| ticker_values := ticker_values c; balances := balances c;
     non_existent_tickers := non_existent_tickers c; orders := d |}.

(** [d[item[kf]] = float(item[vf])]: Python evaluates the right-hand side
    first, then the subscript, and hashes the key when it stores. *)
Definition store_item (kf vf : string) (item : value) (d : gmap pykey F)
  : raises (gmap pykey F) :=
  x <~ (v <~ getitem item vf ;; float v) ;;
  k <~ (s <~ getitem item kf ;; hash_key s) ;;
  inr (<[k := x]> d).

(** [for item in items: d[item[kf]] = float(item[vf])]. The dict is given
    back as the loop leaves it: complete, or as it stands when an item
    raises. *)
Fixpoint store_all (kf vf : string) (items : list value) (d : gmap pykey F)
  : gmap pykey F * option exn :=
  match items with
  | [] => (d, None)
  | item :: rest =>
      match store_item kf vf item d with
      | inl e => (d, Some e)
      | inr d' => store_all kf vf rest d'
      end
  end.

End Cache.

Arguments BinanceOrder F : clear implicits.
Arguments BinanceCache F : clear implicits.

(** ** The transport collaborator

    [self.bm] is the socket manager. A start request answers with a
    connection key (the stream path), with a falsy value when it opens
    nothing, or raises; the manager's own state changes with every request. *)

Inductive sub_kind : Type := Ticker | User.

#[global] Instance sub_kind_eq_dec : EqDecision sub_kind.
Proof. solve_decision. Defined.

Inductive conn : Type :=
  | CPath (path : string)
  | CFalse
  | CNone.

#[global] Instance conn_eq_dec : EqDecision conn.
Proof. solve_decision. Defined.

(** [if conn:]: a non-empty string is true; [False], [None] and the empty
    string are false. *)
Definition truthy (c : conn) : bool :=
  match c with
  | CPath path => negb (bool_decide (path = EmptyString))
  | CFalse | CNone => false
  end.

(** [CustomBinanceSocketManager._start_socket]: a path that already has a
    connection answers [False] and opens nothing; otherwise the connection
    is opened with reconnection and a 5 s ping, recorded under the path, and
    the path is the key. [STREAM_URL] is the parent class's constant;
    [connectWS] is taken to connect. *)
Record connection : Type := {
  factory_url : string;
  reconnect : bool;
  autoPingInterval : nat;
  autoPingTimeout : nat
}.

Definition _start_socket (STREAM_URL path prefix : string)
    (_conns : gmap string connection) : conn * gmap string connection :=
  if bool_decide (is_Some (_conns !! path)) then (CFalse, _conns)
  else
    let factory :=
      {| factory_url := String.append STREAM_URL (String.append prefix path);
         reconnect := true; autoPingInterval := 5; autoPingTimeout := 5 |} in
    (CPath path, <[path := factory]> _conns).

(** [start_socket Ticker] is [bm.start_ticker_socket(callback)],
    [start_socket User] is [bm.start_user_socket(callback)], and
    [stop_socket] is [bm.stop_socket(conn_key)]. *)
Class Transport (BM : Type) : Type := {
  start_socket : sub_kind -> BM -> raises conn * BM;
  stop_socket : conn -> BM -> BM
}.

(** What the manager does to its collaborators, in program order: the lines
    it logs, the sleep of [retry], the start and stop requests to the
    transport and the [clear()] of a cache dict. *)
Inductive log_record : Type :=
  | StartingSocket (k : sub_kind)
  | FailedToConnect (attempts : nat)
  | Cause (e : exn)
  | TickerSocketError (msg : value)
  | UserSocketMessage (msg : value).

Inductive effect : Type :=
  | Log (r : log_record)
  | Sleep (seconds : nat)
  | StartSocket (k : sub_kind)
  | StopSocket (key : conn)
  | Clear (k : sub_kind).

Section Manager.
Context {F : Type} `{PyFloat F} {BM : Type} `{Transport BM}.

Record BinanceStreamManager : Type := {
  cache : BinanceCache F;
  bm : BM;
  ticker_price_socket_conn_key : conn;
  user_socket_conn_key : conn;
  journal : list effect
}.

Definition with_cache (c : BinanceCache F) (m : BinanceStreamManager) : BinanceStreamManager :=
  {| cache := c; bm := bm m;
     ticker_price_socket_conn_key := ticker_price_socket_conn_key m;
     user_socket_conn_key := user_socket_conn_key m; journal := journal m |}.

Definition with_bm (b : BM) (m : BinanceStreamManager) : BinanceStreamManager :=
  {| cache := cache m; bm := b;
     ticker_price_socket_conn_key := ticker_price_socket_conn_key m;
     user_socket_conn_key := user_socket_conn_key m; journal := journal m |}.

Definition with_conn_key (k : sub_kind) (c : conn) (m : BinanceStreamManager)
  : BinanceStreamManager :=
  {| cache := cache m; bm := bm m;
     ticker_price_socket_conn_key :=
       match k with Ticker => c | User => ticker_price_socket_conn_key m end;
     user_socket_conn_key :=
       match k with Ticker => user_socket_conn_key m | User => c end;
     journal := journal m |}.

Definition emit (e : effect) (m : BinanceStreamManager) : BinanceStreamManager :=
  {| cache := cache m; bm := bm m;
     ticker_price_socket_conn_key := ticker_price_socket_conn_key m;
     user_socket_conn_key := user_socket_conn_key m;
     journal := journal m ++ [e] |}.

Definition conn_key (k : sub_kind) (m : BinanceStreamManager) : conn :=
  match k with
  | Ticker => ticker_price_socket_conn_key m
  | User => user_socket_conn_key m
  end.

(** How a call ends. [OutOfFuel] is a call cut off while still running; the
    manager is the one the call has reached by then. *)
Inductive outcome (A : Type) : Type :=
  | Returned (a : A) (m : BinanceStreamManager)
  | Raised (e : exn) (m : BinanceStreamManager)
  | OutOfFuel (m : BinanceStreamManager).
#[global] Arguments Returned {A} a m.
#[global] Arguments Raised {A} e m.
#[global] Arguments OutOfFuel {A} m.

Definition final {A : Type} (o : outcome A) : BinanceStreamManager :=
  match o with
  | Returned _ m | Raised _ m | OutOfFuel m => m
  end.

(** The [while attempts < 20] loop of [retry]. [except Exception] catches
    the [Exception]s only; what is not one goes through to the caller.
    [budget] bounds the iterations for the termination check; [retry] gives
    it 20, which the loop never uses up (lemma [retry_loop_budget]). *)
Fixpoint retry_loop (func : BinanceStreamManager -> outcome conn)
    (budget attempts : nat) (m : BinanceStreamManager) : outcome conn :=
  if bool_decide (attempts < 20) then
    match budget with
    | 0 => OutOfFuel m
    | S budget' =>
        match func m with
        | Returned c m' => Returned c m'
        | Raised e m' =>
            if is_exception e then
              let m1 := emit (Log (FailedToConnect attempts)) m' in
              let m2 := if bool_decide (attempts = 0) then emit (Log (Cause e)) m1 else m1 in
              retry_loop func budget' (attempts + 1) m2
            else Raised e m'
        | OutOfFuel m' => OutOfFuel m'
        end
    end
  else Returned CNone m.

Definition retry (func : BinanceStreamManager -> outcome conn)
    (m : BinanceStreamManager) : outcome conn :=
  let attempts := 0 in
  let m1 := emit (Sleep (1 + attempts * 5)) m in
  retry_loop func 20 attempts m1.

(** [_start_ticker_values_socket] and [_start_user_socket] are the same
    method up to the stream they start: log, ask the transport, return a
    truthy key, otherwise [retry] the method itself. [fuel] bounds the depth
    of that recursion; the interpreter's own limit on it (a [RecursionError]
    some hundreds of levels down) is not part of the model. *)
Fixpoint start_subscription (k : sub_kind) (fuel : nat)
    (m : BinanceStreamManager) : outcome conn :=
  match fuel with
  | 0 => OutOfFuel m
  | S fuel' =>
      let m1 := emit (Log (StartingSocket k)) m in
      let '(r, b) := start_socket k (bm m1) in
      let m2 := emit (StartSocket k) (with_bm b m1) in
      match r with
      | inl e => Raised e m2
      | inr c =>
          if truthy c then Returned c m2
          else retry (start_subscription k fuel') m2
      end
  end.

Definition _start_ticker_values_socket := start_subscription Ticker.
Definition _start_user_socket := start_subscription User.

Definition do_stop_socket (key : conn) (m : BinanceStreamManager) : BinanceStreamManager :=
  emit (StopSocket key) (with_bm (stop_socket key (bm m)) m).

Definition clear_ticker_values (m : BinanceStreamManager) : BinanceStreamManager :=
  emit (Clear Ticker) (with_cache (with_ticker_values ∅ (cache m)) m).

Definition clear_balances (m : BinanceStreamManager) : BinanceStreamManager :=
  emit (Clear User) (with_cache (with_balances ∅ (cache m)) m).

(** ["e" in msg and msg["e"] == "error"] *)
Definition is_ticker_error (msg : value) : raises bool :=
  b <~ contains_e msg ;;
  if b : bool then (e <~ getitem msg "e" ;; inr (eq_str e "error")) else inr false.

Definition _process_ticker_values (fuel : nat) (msg : value)
    (m : BinanceStreamManager) : outcome unit :=
  match is_ticker_error msg with
  | inl e => Raised e m
  | inr true =>
      let m1 := emit (Log (TickerSocketError msg)) m in
      let m2 := do_stop_socket (ticker_price_socket_conn_key m1) m1 in
      match _start_ticker_values_socket fuel m2 with
      | Returned c m3 => Returned tt (clear_ticker_values (with_conn_key Ticker c m3))
      | Raised e m3 => Raised e m3
      | OutOfFuel m3 => OutOfFuel m3
      end
  | inr false =>
      match iter msg with
      | inl e => Raised e m
      | inr items =>
          let '(d, r) := store_all "s" "c" items (ticker_values (cache m)) in
          let m' := with_cache (with_ticker_values d (cache m)) m in
          match r with
          | None => Returned tt m'
          | Some e => Raised e m'
          end
      end
  end.

(** [del d[k]] *)
Definition del_item {V : Type} (k : pykey) (d : gmap pykey V) : raises (gmap pykey V) :=
  match d !! k with
  | Some _ => inr (delete k d)
  | None => inl (KeyError k)
  end.

Definition _process_user_socket (fuel : nat) (msg : value)
    (m : BinanceStreamManager) : outcome unit :=
  let m0 := emit (Log (UserSocketMessage msg)) m in
  match getitem msg "e" with
  | inl e => Raised e m0
  | inr kind =>
      if eq_str kind "error" then
        let m1 := do_stop_socket (user_socket_conn_key m0) m0 in
        match _start_user_socket fuel m1 with
        | Returned c m2 => Returned tt (clear_balances (with_conn_key User c m2))
        | Raised e m2 => Raised e m2
        | OutOfFuel m2 => OutOfFuel m2
        end
      else if eq_str kind "outboundAccountPosition" then
        match (b <~ getitem msg "B" ;; iter b) with
        | inl e => Raised e m0
        | inr items =>
            let '(d, r) := store_all "a" "f" items (balances (cache m0)) in
            let m' := with_cache (with_balances d (cache m0)) m0 in
            match r with
            | None => Returned tt m'
            | Some e => Raised e m'
            end
        end
      else if eq_str kind "balanceUpdate" then
        match (a <~ getitem msg "a" ;; k <~ hash_key a ;; del_item k (balances (cache m0))) with
        | inl e => Raised e m0
        | inr d => Returned tt (with_cache (with_balances d (cache m0)) m0)
        end
      else if eq_str kind "executionReport" then
        match (order <~ new_BinanceOrder msg ;; k <~ hash_key (id order) ;; inr (k, order)) with
        | inl e => Raised e m0
        | inr (k, order) =>
            Returned tt (with_cache (with_orders (<[k := order]> (orders (cache m0))) (cache m0)) m0)
        end
      else Returned tt m0
  end.

End Manager.

Arguments BinanceStreamManager F BM : clear implicits.

(** ** The sentences of the specification, as definitions *)

(** A per-symbol update, a balance entry and an event are objects. *)
Definition is_object (v : value) : Prop := exists fields, v = VObj fields.

Section Readings.
Context {F : Type} `{PyFloat F}.

(** What one update says: the key it names and the number it carries, read
    as the loop body reads them. *)
Definition read_update (kf vf : string) (item : value) : raises (pykey * F) :=
  x <~ (v <~ getitem item vf ;; float v) ;;
  k <~ (s <~ getitem item kf ;; hash_key s) ;;
  inr (k, x).

Definition reads (kf vf : string) (item : value) (u : pykey * F) : Prop :=
  read_update kf vf item = inr u.

(** The number of the most recent update that names [k], if any. *)
Fixpoint most_recent (k : pykey) (updates : list (pykey * F)) : option F :=
  match updates with
  | [] => None
  | (k', x) :: later =>
      match most_recent k later with
      | Some y => Some y
      | None => if decide (k' = k) then Some x else None
      end
  end.

(** An update whose price field is a string that is not a number. *)
Definition malformed_price (item : value) (text : string) : Prop :=
  getitem item "c" = inr (VStr text) /\ float_of_string text = None.

(** The dict after the assignments of [updates], oldest first. *)
Definition assign_all (updates : list (pykey * F)) (d : gmap pykey F) : gmap pykey F :=
  foldl (fun acc u => <[u.1 := u.2]> acc) d updates.

End Readings.

(** The transport delivers the messages of one subscription one at a time, in
    order; a message whose handler does not return ends the run. *)
Fixpoint deliver {F BM : Type}
    (handler : value -> BinanceStreamManager F BM -> outcome unit)
    (msgs : list value) (m : BinanceStreamManager F BM) : outcome unit :=
  match msgs with
  | [] => Returned tt m
  | msg :: rest =>
      match handler msg m with
      | Returned _ m' => deliver handler rest m'
      | Raised e m' => Raised e m'
      | OutOfFuel m' => OutOfFuel m'
      end
  end.

(** The effects by which the order of a recovery is read off the journal. *)
Definition is_stop (e : effect) : bool :=
  match e with StopSocket _ => true | _ => false end.

Definition is_clear (k : sub_kind) (e : effect) : bool :=
  match e with Clear k' => bool_decide (k' = k) | _ => false end.

Definition is_start_request (k : sub_kind) (e : effect) : bool :=
  match e with StartSocket k' => bool_decide (k' = k) | _ => false end.

Fixpoint first_index (p : effect -> bool) (evs : list effect) : option nat :=
  match evs with
  | [] => None
  | e :: rest => if p e then Some 0 else S <$> first_index p rest
  end.

Definition count (p : effect -> bool) (evs : list effect) : nat :=
  length (filter (fun e => p e = true) evs).

(** "Stop, then clear, and only then start again": in [evs] the first stop
    comes before the first clear of [k]'s collection, which comes before the
    first start request for [k]. *)
Definition clear_before_restart (k : sub_kind) (evs : list effect) : Prop :=
  exists i j l,
    first_index is_stop evs = Some i /\
    first_index (is_clear k) evs = Some j /\
    first_index (is_start_request k) evs = Some l /\
    i < j /\ j < l.

(** "Stop, then start again, and only then clear". *)
Definition restart_before_clear (k : sub_kind) (evs : list effect) : Prop :=
  exists i j l,
    first_index is_stop evs = Some i /\
    first_index (is_start_request k) evs = Some l /\
    first_index (is_clear k) evs = Some j /\
    i < l /\ l < j.

(** The effects of [retry] itself: its sleep and its two log lines. *)
Definition retry_effect (e : effect) : bool :=
  match e with
  | Log (FailedToConnect _) | Log (Cause _) | Sleep _ => true
  | _ => false
  end.

(** The effects of a start operation on subscription [k]: those of [retry],
    its own log line and start requests for [k]; no stop, no clear. *)
Definition starting_effect (k : sub_kind) (e : effect) : bool :=
  match e with
  | Log (StartingSocket k') | StartSocket k' => bool_decide (k' = k)
  | _ => retry_effect e
  end.

(** The operations of the subsystem that can touch the cache. *)
Inductive operation : Type :=
  | StartTicker
  | StartUser
  | TickerMessage (msg : value)
  | UserMessage (msg : value).

Definition perform {F BM : Type} `{PyFloat F} `{Transport BM}
    (fuel : nat) (op : operation) (m : BinanceStreamManager F BM)
    : BinanceStreamManager F BM :=
  match op with
  | StartTicker => final (_start_ticker_values_socket fuel m)
  | StartUser => final (_start_user_socket fuel m)
  | TickerMessage msg => final (_process_ticker_values fuel msg m)
  | UserMessage msg => final (_process_user_socket fuel msg m)
  end.

(** The handler of a subscription, and the messages that are in-band errors
    for it: the test each handler makes first. *)
Definition process {F BM : Type} `{PyFloat F} `{Transport BM} (k : sub_kind)
    : nat -> value -> BinanceStreamManager F BM -> outcome unit :=
  match k with
  | Ticker => _process_ticker_values
  | User => _process_user_socket
  end.

(** The log line a handler writes before it recovers: the ticker handler
    its debug line on the error, the user handler the debug line it writes
    for every message. *)
Definition recovery_line (k : sub_kind) (msg : value) : log_record :=
  match k with
  | Ticker => TickerSocketError msg
  | User => UserSocketMessage msg
  end.

Definition in_band_error (k : sub_kind) (msg : value) : Prop :=
  match k with
  | Ticker => is_ticker_error msg = inr true
  | User => exists kind, getitem msg "e" = inr kind /\ eq_str kind "error" = true
  end.

(** The event kinds the user handler knows; any other value of [e] is an
    unrecognized kind. *)
Definition known_kinds : list string :=
  ["error"; "outboundAccountPosition"; "balanceUpdate"; "executionReport"].

Definition unrecognized (kind : value) : bool :=
  forallb (fun s => negb (eq_str kind s)) known_kinds.

(** ** Instances for the examples *)

(** A transport that answers from a script: the answers to the coming start
    requests, then [otherwise] for ever. *)
Record scripted : Type := {
  pending : list (raises conn);
  otherwise : raises conn
}.

#[global] Instance scripted_transport : Transport scripted := {
  start_socket _ b :=
    match pending b with
    | [] => (otherwise b, b)
    | r :: rest => (r, {| pending := rest; otherwise := otherwise b |})
    end;
  stop_socket _ b := b
}.

(** Floats that are whole numbers, written in decimal digits. *)
Fixpoint digits (s : string) (acc : Z) : option Z :=
  match s with
  | EmptyString => Some acc
  | String c rest =>
      let n := nat_of_ascii c in
      if bool_decide (48 <= n <= 57)%nat
      then digits rest (10 * acc + Z.of_nat (n - 48))
      else None
  end.

Definition whole_number (s : string) : option Z :=
  match s with
  | EmptyString => None
  | _ => digits s 0
  end.

#[global] Instance whole_floats : PyFloat Z := {
  float_of_string := whole_number;
  float_of_int z := if bool_decide (Z.abs z < 2 ^ 1024)%Z then Some z else None
}.

Definition fresh {BM : Type} (b : BM) : BinanceStreamManager Z BM :=
  {| cache := empty_cache; bm := b;
     ticker_price_socket_conn_key := CNone; user_socket_conn_key := CNone;
     journal := [] |}.

(** A transport that never opens anything: every start request answers
    [False], as [_start_socket] does for a path it already holds. *)
Inductive unplugged : Type := Unplugged.

#[global] Instance unplugged_transport : Transport unplugged := {
  start_socket _ b := (inr CFalse, b);
  stop_socket _ b := b
}.

(** A transport that opens the ticker stream at the first request. *)
Definition willing : scripted :=
  {| pending := []; otherwise := inr (CPath "!ticker@arr") |}.

(** A transport that answers the first request with [False] and raises at
    every later one. *)
Definition failing : scripted :=
  {| pending := [inr CFalse]; otherwise := inl (TransportError "refused") |}.

(** A transport that answers [False], raises 19 times, and opens the stream
    at the 21st request. *)
Definition twenty_failures : scripted :=
  {| pending := inr CFalse :: replicate 19 (inl (TransportError "refused"));
     otherwise := inr (CPath "!ticker@arr") |}.

Definition error_msg : value :=
  VObj [("e", VStr "error"); ("m", VStr "connection lost")].

Definition update (sym price_text : string) : value :=
  VObj [("s", VStr sym); ("c", VStr price_text)].

Definition balance (asset free_text : string) : value :=
  VObj [("a", VStr asset); ("f", VStr free_text)].

Definition position_msg : value :=
  VObj [("e", VStr "outboundAccountPosition");
        ("B", VList [balance "BTC" "2"; balance "ETH" "40"])].

Definition balance_update_msg : value :=
  VObj [("e", VStr "balanceUpdate"); ("a", VStr "BTC"); ("d", VStr "100")].

Definition report (order_id : Z) (order_status filled : string) : value :=
  VObj [("e", VStr "executionReport"); ("s", VStr "ETHBTC"); ("S", VStr "BUY");
        ("o", VStr "LIMIT"); ("i", VInt order_id); ("Z", VStr filled);
        ("X", VStr order_status); ("p", VStr "3"); ("T", VInt 1499405658657)].

Definition order_of (order_id : Z) (order_status : string) (filled : Z)
    (ev : value) : BinanceOrder Z :=
  {| event := ev; symbol := VStr "ETHBTC"; side := VStr "BUY";
     order_type := VStr "LIMIT"; id := VInt order_id;
     cumulative_quote_qty := filled; status := VStr order_status; price := 3%Z;
     transaction_time := VInt 1499405658657 |}.

(** A manager whose cache holds one price and one balance. *)
Definition holding : BinanceStreamManager Z scripted :=
  {| cache := {| ticker_values := {[ KStr "BTC" := 9%Z ]};
                 balances := {[ KStr "BTC" := 5%Z ]};
                 non_existent_tickers := ∅; orders := ∅ |};
     bm := willing;
     ticker_price_socket_conn_key := CPath "!ticker@arr";
     user_socket_conn_key := CPath "listen-key";
     journal := [] |}.

Definition two_messages : list (list value) :=
  [[update "BTC" "12"; update "ETH" "3"]; [update "BTC" "13"]].

Definition two_batches : list (list (pykey * Z)) :=
  [[(KStr "BTC", 12%Z); (KStr "ETH", 3%Z)]; [(KStr "BTC", 13%Z)]].

(** The manager after the ticker handler has recovered from [error_msg]. *)
Definition recovered : BinanceStreamManager Z scripted :=
  final (_process_ticker_values 1 error_msg holding).



(** ** Further operations and readings *)

(** [_start_socket] on a list of paths, one after the other. *)
Definition start_paths (STREAM_URL prefix : string) (paths : list string)
    (_conns : gmap string connection) : gmap string connection :=
  foldl (fun acc path => (_start_socket STREAM_URL path prefix acc).2) _conns paths.

(** The entry a list of keyed entries holds last under [k], if any. *)
Fixpoint latest {V : Type} (k : pykey) (entries : list (pykey * V)) : option V :=
  match entries with
  | [] => None
  | (k', x) :: later =>
      match latest k later with
      | Some y => Some y
      | None => if decide (k' = k) then Some x else None
      end
  end.

(** What an execution report says: the record built from it and the key its
    id hashes to, as the handler takes them. *)
Definition reports {F : Type} `{PyFloat F} (ev : value)
    (entry : pykey * BinanceOrder F) : Prop :=
  getitem ev "e" = inr (VStr "executionReport") /\
  new_BinanceOrder ev = inr entry.2 /\
  hash_key (id entry.2) = inr entry.1.

Definition is_warning (e : effect) : bool :=
  match e with Log (FailedToConnect _) => true | _ => false end.

(** [bm.start()]: the socket manager's thread is started. *)
Class EventLoop (BM : Type) : Type := {
  bm_start : BM -> BM
}.

(** [BinanceStreamManager.__init__]: keep the cache, start the ticker
    stream, then the user stream, keep their keys, start the socket
    manager. [b] is the socket manager just created; the two keys do not
    exist before they are assigned and stand as [CNone] until then. *)
Definition __init__ {F BM : Type} `{PyFloat F} `{Transport BM} `{EventLoop BM}
    (fuel : nat) (c : BinanceCache F) (b : BM) : outcome unit :=
  let self :=
    {| cache := c; bm := b; ticker_price_socket_conn_key := CNone;
       user_socket_conn_key := CNone; journal := [] |} in
  match _start_ticker_values_socket fuel self with
  | Returned key1 m1 =>
      match _start_user_socket fuel (with_conn_key Ticker key1 m1) with
      | Returned key2 m2 =>
          let m3 := with_conn_key User key2 m2 in
          Returned tt (with_bm (bm_start (bm m3)) m3)
      | Raised e m2 => Raised e m2
      | OutOfFuel m2 => OutOfFuel m2
      end
  | Raised e m1 => Raised e m1
  | OutOfFuel m1 => OutOfFuel m1
  end.

#[global] Instance scripted_loop : EventLoop scripted := {
  bm_start b := b
}.

(** What [retry] and the start operation it calls leave in the journal for
    the start requests that raised [errs], the first of them being attempt
    number [a]: the start operation's log line and its request, then the
    warning of the attempt, and the cause after the warning of attempt 0. *)
Fixpoint attempts_log (k : sub_kind) (a : nat) (errs : list exn) : list effect :=
  match errs with
  | [] => []
  | e :: rest =>
      [Log (StartingSocket k); StartSocket k; Log (FailedToConnect a)]
        ++ (if bool_decide (a = 0) then [Log (Cause e)] else [])
        ++ attempts_log k (a + 1) rest
  end.

(** A transport whose start request is interrupted from the keyboard. *)
Definition interrupted : scripted :=
  {| pending := [inl (TransportError "refused")]; otherwise := inl KeyboardInterrupt |}.

(** The manager [retry] leaves when the second request is interrupted. *)
Definition interrupted_retry : BinanceStreamManager Z scripted :=
  final (retry (start_subscription Ticker 1) (fresh interrupted)).

(** A transport that refuses three requests and opens the stream at the
    fourth. *)
Definition thrice_refusing : scripted :=
  {| pending := (inl <$> replicate 3 (TransportError "refused"))
                  ++ [inr (CPath "!ticker@arr")];
     otherwise := inr CFalse |}.

(** A transport that raises at every start request. *)
Definition refusing : scripted :=
  {| pending := []; otherwise := inl (TransportError "refused") |}.

(** The manager after a first start of the ticker stream. *)
Definition started : BinanceStreamManager Z scripted :=
  final (_start_ticker_values_socket 1 (fresh willing)).

(** The manager whose ticker recovery met a transport that refuses. *)
Definition unrecovered : BinanceStreamManager Z scripted :=
  final (_process_ticker_values 1 error_msg (with_bm refusing holding)).

(** The manager after a [balanceUpdate] for an asset it does not hold. *)
Definition unchanged : BinanceStreamManager Z scripted :=
  final (_process_user_socket 0 balance_update_msg (fresh willing)).

Definition single_ticker_fields : list (string * value) :=
  [("e", VStr "24hrTicker"); ("s", VStr "BTCUSDT"); ("c", VStr "7")].

Definition broken_position_msg : value :=
  VObj [("e", VStr "outboundAccountPosition");
        ("B", VList ([balance "ETH" "40"] ++ balance "BTC" "much" :: [balance "ADA" "1"]))].

Definition three_reports : list value :=
  [report 7 "NEW" "0"; report 8 "NEW" "0"; report 7 "FILLED" "6"].

Definition three_entries : list (pykey * BinanceOrder Z) :=
  [(KInt 7, order_of 7 "NEW" 0 (report 7 "NEW" "0"));
   (KInt 8, order_of 8 "NEW" 0 (report 8 "NEW" "0"));
   (KInt 7, order_of 7 "FILLED" 6 (report 7 "FILLED" "6"))].

(** A transport that answers each of the two streams with [False] and then
    raises 20 times. *)
Definition hopeless : scripted :=
  {| pending :=
       (inr CFalse :: replicate 20 (inl (TransportError "refused")))
         ++ (inr CFalse :: replicate 20 (inl (TransportError "refused")));
     otherwise := inl (TransportError "refused") |}.

(** The manager built over a transport that never opens a stream. *)
Definition constructed : BinanceStreamManager Z scripted :=
  final (__init__ 2 empty_cache hopeless).

(** ** Properties *)

Section Properties.
Context {F : Type} `{PyFloat F} {BM : Type} `{Transport BM}.

Implicit Types (m : BinanceStreamManager F BM) (d : gmap pykey F).
Implicit Types (items : list value) (updates : list (pykey * F)).

(** *** The socket manager *)

(** Started once, a path answers [False] to every further start and no
    handle comes out: the answer the start operations read as a failure. *)
Lemma _start_socket_again url path prefix (conns : gmap string connection) :
  let conns' := (_start_socket url path prefix conns).2 in
  _start_socket url path prefix conns' = (CFalse, conns') /\
  truthy CFalse = false.
Proof.
  cbn. split; [|done]. unfold _start_socket at 2 3.
  case_bool_decide as Hheld; cbn.
  - unfold _start_socket. by rewrite bool_decide_eq_true_2.
  - unfold _start_socket. rewrite bool_decide_eq_true_2; [done|].
    rewrite lookup_insert_eq. by eexists.
Qed.

(** *** The assignment loops *)

Lemma store_item_read kf vf item d :
  store_item kf vf item d =
    match read_update kf vf item with
    | inl e => inl e
    | inr u => inr (<[u.1 := u.2]> d)
    end.
Proof.
  unfold store_item, read_update, rbind.
  destruct (getitem item vf) as [e|v]; [done|].
  destruct (float v) as [e|x]; [done|].
  destruct (getitem item kf) as [e|s]; [done|].
  by destruct (hash_key s).
Qed.

Lemma store_all_reads kf vf items updates d :
  Forall2 (reads kf vf) items updates ->
  store_all kf vf items d = (assign_all updates d, None).
Proof.
  intros Hall. revert d.
  induction Hall as [|item u items updates Hu _ IH]; intros d; [done|].
  cbn [store_all]. rewrite store_item_read, Hu. apply IH.
Qed.

Lemma store_all_stops kf vf pre t post updates e d :
  Forall2 (reads kf vf) pre updates ->
  read_update kf vf t = inl e ->
  store_all kf vf (pre ++ t :: post) d = (assign_all updates d, Some e).
Proof.
  intros Hall Ht. revert d.
  induction Hall as [|item u items ups Hu _ IH]; intros d.
  - cbn. by rewrite store_item_read, Ht.
  - cbn [app store_all]. rewrite store_item_read, Hu. apply IH.
Qed.

Lemma store_all_raises kf vf pre t post e0 d :
  read_update kf vf t = inl e0 ->
  exists e d', store_all kf vf (pre ++ t :: post) d = (d', Some e).
Proof.
  intros Ht. revert d. induction pre as [|item pre IH]; intros d.
  - cbn. rewrite store_item_read, Ht. eauto.
  - cbn [app store_all]. destruct (store_item kf vf item d) as [e|d']; eauto.
Qed.

Lemma most_recent_app k (older newer : list (pykey * F)) :
  most_recent k (older ++ newer) =
    match most_recent k newer with
    | Some y => Some y
    | None => most_recent k older
    end.
Proof.
  induction older as [|[k' x] older IH]; cbn.
  - by destruct (most_recent k newer).
  - rewrite IH. by destruct (most_recent k newer).
Qed.

Lemma assign_all_lookup updates d k :
  assign_all updates d !! k =
    match most_recent k updates with
    | Some x => Some x
    | None => d !! k
    end.
Proof.
  revert d. induction updates as [|[k' x] later IH]; intros d; [done|].
  cbn. fold (assign_all later (<[k':=x]> d)). rewrite IH.
  destruct (most_recent k later); [done|].
  destruct (decide (k' = k)) as [->|Hne].
  - apply lookup_insert_eq.
  - by apply lookup_insert_ne.
Qed.

Lemma assign_all_app older newer d :
  assign_all (older ++ newer) d = assign_all newer (assign_all older d).
Proof. apply foldl_app. Qed.

(** An update that can be read is an object, never the string ["e"]. *)
Lemma reads_object kf vf item u :
  reads kf vf item u -> exists fields, item = VObj fields.
Proof.
  unfold reads, read_update. destruct item; cbn; try done. eauto.
Qed.

Lemma objects_no_e items :
  Forall is_object items -> existsb (fun x => eq_str x "e") items = false.
Proof.
  induction 1 as [|item items [fields ->] _ IH]; [done|]. by cbn.
Qed.

Lemma reads_objects kf vf items updates :
  Forall2 (reads kf vf) items updates -> Forall is_object items.
Proof.
  induction 1 as [|item u items updates Hu _ IH]; constructor; [|done].
  by eapply reads_object.
Qed.

Lemma malformed_price_read t text :
  malformed_price t text -> read_update "s" "c" t = inl (ValueError text).
Proof.
  intros [Hc Hf]. unfold read_update. rewrite Hc. cbn. by rewrite Hf.
Qed.

Lemma malformed_price_object t text :
  malformed_price t text -> is_object t.
Proof.
  intros [Hc _]. destruct t; cbn in Hc; try done. by eexists.
Qed.

(** A message that is an array of objects is not an in-band error, and the
    handler is then the assignment loop over its elements. *)
Lemma ticker_updates_run fuel items m :
  Forall is_object items ->
  _process_ticker_values fuel (VList items) m =
    let '(d, r) := store_all "s" "c" items (ticker_values (cache m)) in
    let m' := with_cache (with_ticker_values d (cache m)) m in
    match r with
    | None => Returned tt m'
    | Some e => Raised e m'
    end.
Proof.
  intros Hobj. unfold _process_ticker_values, is_ticker_error. cbn.
  by rewrite objects_no_e.
Qed.

(** *** The ticker stream *)

Lemma ticker_messages_run fuel (msgs : list (list value))
    (batches : list (list (pykey * F))) m :
  Forall2 (Forall2 (reads "s" "c")) msgs batches ->
  exists m',
    deliver (_process_ticker_values fuel) (VList <$> msgs) m = Returned tt m' /\
    ticker_values (cache m') = assign_all (concat batches) (ticker_values (cache m)).
Proof.
  intros Hall. revert m.
  induction Hall as [|items updates msgs batches Hmsg _ IH]; intros m.
  - exists m. by cbn.
  - cbn [fmap list_fmap deliver concat].
    rewrite ticker_updates_run by (by eapply reads_objects).
    rewrite (store_all_reads _ _ _ _ _ Hmsg).
    destruct (IH (with_cache (with_ticker_values
      (assign_all updates (ticker_values (cache m))) (cache m)) m)) as (m' & Hrun & Hcache).
    exists m'. split; [done|]. by rewrite Hcache, assign_all_app.
Qed.

(** C4. Starting from the empty ticker cache, a run of well-formed,
    non-error ticker messages returns, and leaves under every symbol the
    price of the most recent update that names it: a symbol that appeared
    maps to that price, a symbol that never appeared has no entry. *)
Theorem ticker_last_write_wins fuel (msgs : list (list value))
    (batches : list (list (pykey * F))) m :
  Forall2 (Forall2 (reads "s" "c")) msgs batches ->
  ticker_values (cache m) = ∅ ->
  exists m',
    deliver (_process_ticker_values fuel) (VList <$> msgs) m = Returned tt m' /\
    forall k, ticker_values (cache m') !! k = most_recent k (concat batches).
Proof.
  intros Hall Hempty.
  destruct (ticker_messages_run fuel msgs batches m Hall) as (m' & Hrun & Hcache).
  exists m'. split; [done|]. intros k.
  rewrite Hcache, assign_all_lookup, Hempty, lookup_empty.
  by destruct (most_recent k (concat batches)).
Qed.

(** From a cache that already holds prices, the entries of the symbols that
    do not appear are kept. *)
Lemma ticker_prices_overwritten_or_kept fuel (msgs : list (list value))
    (batches : list (list (pykey * F))) m :
  Forall2 (Forall2 (reads "s" "c")) msgs batches ->
  exists m',
    deliver (_process_ticker_values fuel) (VList <$> msgs) m = Returned tt m' /\
    forall k, ticker_values (cache m') !! k =
      match most_recent k (concat batches) with
      | Some x => Some x
      | None => ticker_values (cache m) !! k
      end.
Proof.
  intros Hall.
  destruct (ticker_messages_run fuel msgs batches m Hall) as (m' & Hrun & Hcache).
  exists m'. split; [done|]. intros k. by rewrite Hcache, assign_all_lookup.
Qed.

(** C8. A ticker message with an update whose price is a string that is
    not a number makes the handler raise, wherever the update stands; when
    the message is an array of updates and those before it are well formed,
    what is raised is the [ValueError] of that price. *)
Theorem ticker_malformed_price_raises fuel pre t post text m :
  malformed_price t text ->
  exists e m',
    _process_ticker_values fuel (VList (pre ++ t :: post)) m = Raised e m' /\
    (forall updates,
       Forall2 (reads "s" "c") pre updates -> Forall is_object post ->
       e = ValueError text).
Proof.
  intros Hbad. pose proof (malformed_price_read _ _ Hbad) as Hread.
  unfold _process_ticker_values, is_ticker_error. cbn.
  destruct (existsb (fun x => eq_str x "e") (pre ++ t :: post)) eqn:He.
  - cbn. exists TypeError, m. split; [done|].
    intros updates Hpre Hpost.
    rewrite objects_no_e in He; [done|].
    apply Forall_app. split; [by eapply reads_objects|].
    constructor; [by eapply malformed_price_object|done].
  - cbn.
    destruct (store_all_raises "s" "c" pre t post _ (ticker_values (cache m)) Hread)
      as (e & d' & Hloop).
    rewrite Hloop. eexists e, _. split; [done|].
    intros updates Hpre _.
    rewrite (store_all_stops _ _ _ _ _ _ _ _ Hpre Hread) in Hloop. congruence.
Qed.

(** C9. When the update at some position has a malformed price and the
    updates before it are well formed, the handler raises the parse fault
    with those earlier updates already assigned: the ticker cache of the
    manager the exception leaves behind holds them, and so differs from
    the cache before the message wherever they brought a new price. *)
Theorem ticker_not_atomic fuel pre t post text updates m :
  Forall2 (reads "s" "c") pre updates ->
  malformed_price t text ->
  Forall is_object post ->
  exists m',
    _process_ticker_values fuel (VList (pre ++ t :: post)) m = Raised (ValueError text) m' /\
    ticker_values (cache m') = assign_all updates (ticker_values (cache m)) /\
    (forall k x, most_recent k updates = Some x ->
       ticker_values (cache m') !! k = Some x) /\
    (forall k x, most_recent k updates = Some x ->
       ticker_values (cache m) !! k <> Some x ->
       ticker_values (cache m') <> ticker_values (cache m)).
Proof.
  intros Hpre Hbad Hpost. pose proof (malformed_price_read _ _ Hbad) as Hread.
  rewrite ticker_updates_run.
  2:{ apply Forall_app. split; [by eapply reads_objects|].
      constructor; [by eapply malformed_price_object|done]. }
  rewrite (store_all_stops _ _ _ _ _ _ _ _ Hpre Hread).
  eexists. split; [done|]. cbn. split; [done|].
  assert (forall k x, most_recent k updates = Some x ->
            assign_all updates (ticker_values (cache m)) !! k = Some x) as Hnew.
  { intros k x Hk. by rewrite assign_all_lookup, Hk. }
  split; [done|].
  intros k x Hk Hold Heq. apply Hold. rewrite <- Heq. by apply Hnew.
Qed.

(** *** The start operations *)

(** What holds of the manager before a start operation and is kept by
    every step it can take holds of the manager it ends with, however it
    ends. *)
Lemma retry_loop_inv (P : BinanceStreamManager F BM -> Prop) func :
  (forall e m, retry_effect e = true -> P m -> P (emit e m)) ->
  (forall m, P m -> P (final (func m))) ->
  forall budget attempts m, P m -> P (final (retry_loop func budget attempts m)).
Proof.
  intros Hemit Hfunc budget.
  induction budget as [|budget IH]; intros attempts m Hm; cbn [retry_loop].
  - by case_bool_decide.
  - case_bool_decide; [|done].
    pose proof (Hfunc m Hm) as Hf.
    destruct (func m) as [c m'|e m'|m']; [done| |done].
    destruct (is_exception e); [|done].
    apply IH. cbn in Hf.
    case_bool_decide; repeat apply Hemit; done.
Qed.

Lemma retry_inv (P : BinanceStreamManager F BM -> Prop) func :
  (forall e m, retry_effect e = true -> P m -> P (emit e m)) ->
  (forall m, P m -> P (final (func m))) ->
  forall m, P m -> P (final (retry func m)).
Proof.
  intros Hemit Hfunc m Hm. unfold retry.
  apply retry_loop_inv; [done..|]. by apply Hemit.
Qed.

Lemma start_subscription_inv k (P : BinanceStreamManager F BM -> Prop) :
  (forall e m, starting_effect k e = true -> P m -> P (emit e m)) ->
  (forall b m, P m -> P (with_bm b m)) ->
  forall fuel m, P m -> P (final (start_subscription k fuel m)).
Proof.
  intros Hemit Hbm fuel.
  induction fuel as [|fuel IH]; intros m Hm; cbn [start_subscription]; [done|].
  destruct (start_socket k (bm (emit (Log (StartingSocket k)) m))) as [r b].
  assert (P (emit (StartSocket k) (with_bm b (emit (Log (StartingSocket k)) m)))) as Hm2.
  { apply Hemit; [cbn; by case_bool_decide|]. apply Hbm.
    apply Hemit; [cbn; by case_bool_decide|done]. }
  destruct r as [e|c]; [done|].
  destruct (truthy c); [done|].
  apply retry_inv; [|done..].
  intros e m' He. apply Hemit.
  by destruct e as [[]| | | |].
Qed.

Lemma start_cache k fuel m :
  cache (final (start_subscription k fuel m)) = cache m.
Proof. by apply (start_subscription_inv k (fun m' => cache m' = cache m)). Qed.

Lemma start_conn_key k k' fuel m :
  conn_key k' (final (start_subscription k fuel m)) = conn_key k' m.
Proof.
  apply (start_subscription_inv k (fun m' => conn_key k' m' = conn_key k' m));
    [by destruct k'..|done].
Qed.

Lemma start_journal k fuel m :
  exists evs,
    journal (final (start_subscription k fuel m)) = journal m ++ evs /\
    Forall (fun e => starting_effect k e = true) evs.
Proof.
  apply (start_subscription_inv k (fun m' => exists evs,
    journal m' = journal m ++ evs /\ Forall (fun e => starting_effect k e = true) evs)).
  - intros e m' He (evs & Hj & Hevs). exists (evs ++ [e]). cbn. rewrite Hj.
    split; [by rewrite app_assoc|]. apply Forall_app. by split; [|constructor].
  - intros b m' Hm'. exact Hm'.
  - exists []. by rewrite app_nil_r.
Qed.

(** A start operation that returns has asked the transport at least once,
    right after its log line. *)
Lemma start_returned_journal k fuel m c m' :
  start_subscription k fuel m = Returned c m' ->
  exists evs,
    journal m' = journal m ++ Log (StartingSocket k) :: StartSocket k :: evs /\
    Forall (fun e => starting_effect k e = true) evs.
Proof.
  destruct fuel as [|fuel]; [done|]. cbn [start_subscription].
  destruct (start_socket k (bm (emit (Log (StartingSocket k)) m))) as [r b].
  destruct r as [e|c']; [done|].
  destruct (truthy c').
  - intros [= <- <-]. exists []. cbn. split; [|done].
    by rewrite <- app_assoc.
  - intros Hretry.
    set (m2 := emit (StartSocket k) (with_bm b (emit (Log (StartingSocket k)) m))) in *.
    assert (exists evs, journal (final (retry (start_subscription k fuel) m2))
              = journal m2 ++ evs /\ Forall (fun e => starting_effect k e = true) evs)
      as (evs & Hj & Hevs).
    { apply (retry_inv (fun m'' => exists evs, journal m'' = journal m2 ++ evs /\
               Forall (fun e => starting_effect k e = true) evs)).
      - intros e m'' He (evs & Hj & Hevs). exists (evs ++ [e]). cbn. rewrite Hj.
        split; [by rewrite app_assoc|]. apply Forall_app.
        split; [done|]. constructor; [|done]. by destruct e as [[]| | | |].
      - intros m'' (evs & Hj & Hevs).
        destruct (start_journal k fuel m'') as (evs' & Hj' & Hevs').
        exists (evs ++ evs'). rewrite Hj', Hj.
        split; [by rewrite app_assoc|]. by apply Forall_app.
      - exists []. by rewrite app_nil_r. }
    rewrite Hretry in Hj. cbn in Hj. exists evs. split; [|done].
    rewrite Hj. by rewrite <- !app_assoc.
Qed.

(** The budget of the loop is never what ends it. *)
Lemma retry_loop_budget func budget attempts m m' :
  20 <= attempts + budget ->
  retry_loop func budget attempts m = OutOfFuel m' ->
  exists m0, func m0 = OutOfFuel m'.
Proof.
  revert attempts m. induction budget as [|budget IH]; intros attempts m Hle; cbn [retry_loop].
  - case_bool_decide; [lia|done].
  - case_bool_decide; [|done].
    destruct (func m) as [c m1|e m1|m1] eqn:Hf; [done| |].
    + destruct (is_exception e); [|done]. apply IH. lia.
    + intros [= <-]. eauto.
Qed.

(** When every call raises an [Exception], [retry] makes its 20 calls and
    returns [None]. *)
Lemma retry_loop_gives_up func :
  (forall m, exists e m', func m = Raised e m' /\ is_exception e = true) ->
  forall budget attempts m, 20 <= attempts + budget ->
  exists m', retry_loop func budget attempts m = Returned CNone m'.
Proof.
  intros Hraise budget.
  induction budget as [|budget IH]; intros attempts m Hle; cbn [retry_loop].
  - case_bool_decide; [lia|eauto].
  - case_bool_decide; [|eauto].
    destruct (Hraise m) as (e & m1 & -> & ->). apply IH. lia.
Qed.

Lemma retry_gives_up func m :
  (forall m, exists e m', func m = Raised e m' /\ is_exception e = true) ->
  exists m', retry func m = Returned CNone m'.
Proof. intros Hraise. unfold retry. apply retry_loop_gives_up; [done|lia]. Qed.

Lemma count_snoc p evs e :
  count p (evs ++ [e]) = count p evs + (if p e then 1 else 0).
Proof.
  unfold count. rewrite filter_app, length_app. f_equal.
  rewrite filter_cons, filter_nil. destruct (p e); by case_decide.
Qed.

(** C1, on the code. A transport that answers every start request with no
    handle, without raising, is asked again at every level of the recursion
    between the start operation and [retry]: cut off at depth [fuel], the
    call has made [fuel] start requests and has not returned. The 21st
    request is made, and [None] is never returned. *)
Theorem start_without_handle_never_returns k :
  (forall b, exists c b', start_socket k b = (inr c, b') /\ truthy c = false) ->
  forall fuel m, exists m',
    start_subscription k fuel m = OutOfFuel m' /\
    count (is_start_request k) (journal m') =
      count (is_start_request k) (journal m) + fuel.
Proof.
  intros Hdeaf fuel.
  induction fuel as [|fuel IH]; intros m; cbn [start_subscription].
  - exists m. split; [done|lia].
  - destruct (Hdeaf (bm (emit (Log (StartingSocket k)) m))) as (c & b' & -> & ->).
    unfold retry. cbn [retry_loop].
    case_bool_decide; [|lia].
    match goal with |- context [start_subscription k fuel ?m1] =>
      destruct (IH m1) as (m' & -> & Hcount) end.
    exists m'. split; [done|]. rewrite Hcount. cbn [journal emit with_bm].
    rewrite !count_snoc. cbn. case_bool_decide; [lia|done].
Qed.

(** *** Recovery from an in-band error *)

Lemma first_index_skip p pre x post :
  Forall (fun e => p e = false) pre -> p x = true ->
  first_index p (pre ++ x :: post) = Some (length pre).
Proof.
  intros Hpre Hx. induction Hpre as [|e pre He _ IH]; cbn.
  - by rewrite Hx.
  - by rewrite He, IH.
Qed.

Lemma count_app p evs evs' : count p (evs ++ evs') = count p evs + count p evs'.
Proof. unfold count. by rewrite filter_app, length_app. Qed.

Lemma count_cons p e evs : count p (e :: evs) = (if p e then 1 else 0) + count p evs.
Proof. unfold count. rewrite filter_cons. destruct (p e); by case_decide. Qed.

Lemma count_none p evs : Forall (fun e => p e = false) evs -> count p evs = 0.
Proof.
  induction 1 as [|e evs He _ IH]; [done|]. by rewrite count_cons, He, IH.
Qed.

Lemma starting_not_stop k evs :
  Forall (fun e => starting_effect k e = true) evs ->
  Forall (fun e => is_stop e = false) evs.
Proof. intros Hall. eapply Forall_impl; [done|]. by intros [[]| | | |]. Qed.

Lemma starting_not_clear k k' evs :
  Forall (fun e => starting_effect k e = true) evs ->
  Forall (fun e => is_clear k' e = false) evs.
Proof. intros Hall. eapply Forall_impl; [done|]. by intros [[]| | | |]. Qed.

(** The effects of a recovery that returns: the handler's log line, the
    stop of the socket under the current key, one run of the start operation
    and, last, the clear of the collection. *)
Lemma recovery_journal k fuel msg m m' :
  in_band_error k msg ->
  process k fuel msg m = Returned tt m' ->
  exists line c m3 evs,
    start_subscription k fuel
      (do_stop_socket (conn_key k m) (emit (Log line) m)) = Returned c m3 /\
    journal m3 = journal m ++ [Log line; StopSocket (conn_key k m)]
                   ++ Log (StartingSocket k) :: StartSocket k :: evs /\
    journal m' = journal m3 ++ [Clear k] /\
    Forall (fun e => starting_effect k e = true) evs /\
    conn_key k m' = c /\
    cache m' = match k with
               | Ticker => with_ticker_values ∅ (cache m)
               | User => with_balances ∅ (cache m)
               end.
Proof.
  intros Herr Hrun. destruct k; cbn in Herr, Hrun.
  - unfold _process_ticker_values in Hrun. rewrite Herr in Hrun.
    unfold _start_ticker_values_socket in Hrun.
    match type of Hrun with context [start_subscription Ticker fuel ?m2] =>
      destruct (start_subscription Ticker fuel m2) as [c m3|e m3|m3] eqn:Hstart;
      [|done..]; pose proof (start_cache Ticker fuel m2) as Hcache end.
    rewrite Hstart in Hcache. cbn in Hcache.
    injection Hrun as <-.
    destruct (start_returned_journal _ _ _ _ _ Hstart) as (evs & Hj & Hevs).
    exists (TickerSocketError msg), c, m3, evs.
    split; [done|]. split; [by rewrite Hj; cbn; rewrite <- !app_assoc|].
    split; [done|]. split; [done|]. split; [done|]. cbn. by rewrite Hcache.
  - destruct Herr as (kind & Hkind & Herr).
    unfold _process_user_socket in Hrun. rewrite Hkind, Herr in Hrun.
    unfold _start_user_socket in Hrun.
    match type of Hrun with context [start_subscription User fuel ?m2] =>
      destruct (start_subscription User fuel m2) as [c m3|e m3|m3] eqn:Hstart;
      [|done..]; pose proof (start_cache User fuel m2) as Hcache end.
    rewrite Hstart in Hcache. cbn in Hcache.
    injection Hrun as <-.
    destruct (start_returned_journal _ _ _ _ _ Hstart) as (evs & Hj & Hevs).
    exists (UserSocketMessage msg), c, m3, evs.
    split; [done|]. split; [by rewrite Hj; cbn; rewrite <- !app_assoc|].
    split; [done|]. split; [done|]. split; [done|]. cbn. by rewrite Hcache.
Qed.

(** The handler on an in-band error, step by step: the log line, the stop
    of the socket under the current key, the start operation, the key it
    returned stored, the collection cleared. *)
Lemma recovery_steps k fuel msg m :
  in_band_error k msg ->
  process k fuel msg m =
    match start_subscription k fuel
            {| cache := cache m;
               bm := stop_socket (conn_key k m) (bm m);
               ticker_price_socket_conn_key := ticker_price_socket_conn_key m;
               user_socket_conn_key := user_socket_conn_key m;
               journal := (journal m ++ [Log (recovery_line k msg)])
                            ++ [StopSocket (conn_key k m)] |} with
    | Returned c m3 =>
        Returned tt
          {| cache :=
               match k with
               | Ticker => with_ticker_values ∅ (cache m3)
               | User => with_balances ∅ (cache m3)
               end;
             bm := bm m3;
             ticker_price_socket_conn_key :=
               match k with Ticker => c | User => ticker_price_socket_conn_key m3 end;
             user_socket_conn_key :=
               match k with Ticker => user_socket_conn_key m3 | User => c end;
             journal := journal m3 ++ [Clear k] |}
    | Raised e m3 => Raised e m3
    | OutOfFuel m3 => OutOfFuel m3
    end.
Proof.
  intros Herr. destruct k; cbn in Herr |- *.
  - unfold _process_ticker_values. rewrite Herr. cbn.
    unfold _start_ticker_values_socket, do_stop_socket, emit, with_bm. cbn.
    by destruct (start_subscription Ticker fuel _).
  - destruct Herr as (kind & Hkind & Herr).
    unfold _process_user_socket. rewrite Hkind, Herr. cbn.
    unfold _start_user_socket, do_stop_socket, emit, with_bm. cbn.
    by destruct (start_subscription User fuel _).
Qed.

(** C2, as the code has it. On an in-band error, on either subscription, a
    handler that returns has: stopped the socket under the key it held, on
    the socket manager as it was; then run the start operation for the same
    subscription on the manager so stopped, which asked the transport at
    least once; and only after it returned, stored the key it gave and
    cleared the collection of that subscription (ticker prices, or
    balances), leaving the other collections alone. There is one stop and
    one clear, the first start request lies between them, and the clear is
    the last effect. *)
Theorem recovery_restarts_then_clears k fuel msg m m' :
  in_band_error k msg ->
  process k fuel msg m = Returned tt m' ->
  exists c m3 run,
    start_subscription k fuel
      {| cache := cache m;
         bm := stop_socket (conn_key k m) (bm m);
         ticker_price_socket_conn_key := ticker_price_socket_conn_key m;
         user_socket_conn_key := user_socket_conn_key m;
         journal := (journal m ++ [Log (recovery_line k msg)])
                      ++ [StopSocket (conn_key k m)] |}
      = Returned c m3 /\
    journal m3 =
      journal m ++ [Log (recovery_line k msg); StopSocket (conn_key k m)]
        ++ Log (StartingSocket k) :: StartSocket k :: run /\
    Forall (fun e => starting_effect k e = true) run /\
    journal m' = journal m3 ++ [Clear k] /\
    bm m' = bm m3 /\
    conn_key k m' = c /\
    conn_key (match k with Ticker => User | User => Ticker end) m'
      = conn_key (match k with Ticker => User | User => Ticker end) m /\
    match k with
    | Ticker =>
        ticker_values (cache m') = ∅ /\ balances (cache m') = balances (cache m)
    | User =>
        balances (cache m') = ∅ /\ ticker_values (cache m') = ticker_values (cache m)
    end /\
    orders (cache m') = orders (cache m) /\
    non_existent_tickers (cache m') = non_existent_tickers (cache m) /\
    let evs :=
      [Log (recovery_line k msg); StopSocket (conn_key k m)]
        ++ (Log (StartingSocket k) :: StartSocket k :: run) ++ [Clear k] in
    journal m' = journal m ++ evs /\
    restart_before_clear k evs /\
    last evs = Some (Clear k) /\
    count is_stop evs = 1 /\
    count (is_clear k) evs = 1 /\
    exists c1 b1,
      start_socket k (stop_socket (conn_key k m) (bm m)) = (inr c1, b1) /\
      (truthy c1 = true -> run = [] /\ c = c1 /\ bm m' = b1).
Proof.
  intros Herr Hrun. rewrite (recovery_steps k fuel msg m Herr) in Hrun.
  match type of Hrun with context [start_subscription k fuel ?m2] =>
    set (stopped := m2) in * end.
  pose proof (start_cache k fuel stopped) as Hcache.
  pose proof (start_conn_key k (match k with Ticker => User | User => Ticker end)
                fuel stopped) as Hother.
  destruct (start_subscription k fuel stopped) as [c m3|e3 m3|m3] eqn:Hstart;
    [|done..].
  injection Hrun as <-. cbn in Hcache, Hother.
  destruct (start_returned_journal _ _ _ _ _ Hstart) as (run & Hj3 & Hrun).
  cbn in Hj3. rewrite <- !app_assoc in Hj3. cbn in Hj3.
  assert (exists c1 b1,
            start_socket k (stop_socket (conn_key k m) (bm m)) = (inr c1, b1) /\
            (truthy c1 = true -> run = [] /\ c = c1 /\ bm m3 = b1)) as Hfirst.
  { destruct fuel as [|fuel]; [done|]. cbn [start_subscription] in Hstart.
    cbn [bm emit stopped] in Hstart.
    destruct (start_socket k (stop_socket (conn_key k m) (bm m))) as [r b1].
    destruct r as [e1|c1]; [done|]. exists c1, b1. split; [done|].
    intros Hc1. rewrite Hc1 in Hstart. injection Hstart as <- <-.
    cbn in Hj3. rewrite <- !app_assoc in Hj3. apply app_inv_head in Hj3.
    cbn in Hj3. split; [|done]. symmetry. by injection Hj3. }
  exists c, m3, run.
  split; [done|]. split; [done|]. split; [done|]. split; [done|].
  split; [done|]. split; [by destruct k|].
  split; [destruct k; cbn in *; by rewrite Hother|].
  split; [destruct k; cbn; by rewrite Hcache|].
  split; [destruct k; cbn; by rewrite Hcache|].
  split; [destruct k; cbn; by rewrite Hcache|].
  cbn zeta. split; [cbn [journal]; by rewrite Hj3, <- !app_assoc|].
  assert (count is_stop run = 0) as Hnostop.
  { apply count_none. by eapply starting_not_stop. }
  assert (count (is_clear k) run = 0) as Hnoclear.
  { apply count_none. by eapply starting_not_clear. }
  split.
  { exists 1, (4 + length run), 3.
    split; [done|].
    split; [cbn; by case_bool_decide|].
    split; [|lia].
    change ([Log (recovery_line k msg); StopSocket (conn_key k m)]
              ++ (Log (StartingSocket k) :: StartSocket k :: run) ++ [Clear k])
      with (([Log (recovery_line k msg); StopSocket (conn_key k m);
              Log (StartingSocket k); StartSocket k] ++ run) ++ Clear k :: []).
    rewrite first_index_skip.
    - by rewrite length_app.
    - apply Forall_app. split; [|by eapply starting_not_clear].
      by repeat constructor.
    - cbn. by case_bool_decide. }
  split; [by rewrite !app_assoc, last_snoc|].
  rewrite !count_app, !count_cons, Hnostop, Hnoclear. cbn.
  rewrite bool_decide_eq_true_2 by done. done.
Qed.

Lemma retry_loop_returned func budget attempts m c m' :
  retry_loop func budget attempts m = Returned c m' ->
  c = CNone \/ exists m0, func m0 = Returned c m'.
Proof.
  revert attempts m. induction budget as [|budget IH]; intros attempts m; cbn [retry_loop].
  - case_bool_decide; [done|]. intros [= <- <-]. by left.
  - case_bool_decide; [|intros [= <- <-]; by left].
    destruct (func m) as [c1 m1|e1 m1|m1] eqn:Hf; [| |done].
    + intros [= <- <-]. right. eauto.
    + destruct (is_exception e1); [apply IH|done].
Qed.

Lemma start_returned_key k fuel m c m' :
  start_subscription k fuel m = Returned c m' ->
  truthy c = true \/ c = CNone.
Proof.
  revert m c m'. induction fuel as [|fuel IH]; intros m c m'; cbn [start_subscription]; [done|].
  destruct (start_socket k (bm (emit (Log (StartingSocket k)) m))) as [r b].
  destruct r as [e|c1]; [done|].
  destruct (truthy c1) eqn:Hc1.
  - intros [= <- <-]. by left.
  - unfold retry. intros [->|(m0 & Hm0)]%retry_loop_returned; [by right|].
    by eapply IH.
Qed.


Lemma retry_loop_step func budget attempts m :
  retry_loop func (S budget) attempts m =
    if bool_decide (attempts < 20) then
      match func m with
      | Returned c m' => Returned c m'
      | Raised e m' =>
          if is_exception e then
            retry_loop func budget (attempts + 1)
              (if bool_decide (attempts = 0)
               then emit (Log (Cause e)) (emit (Log (FailedToConnect attempts)) m')
               else emit (Log (FailedToConnect attempts)) m')
          else Raised e m'
      | OutOfFuel m' => OutOfFuel m'
      end
    else Returned CNone m.
Proof. reflexivity. Qed.



(** *** The user stream *)

(** C3. A [balanceUpdate] event removes the entry of the asset it names
    when there is one, leaving the other entries as they were; when there is
    none the handler raises [KeyError] for that asset and leaves the balances
    as they were. *)
Theorem balance_update_deletes_or_raises fuel msg a k m :
  getitem msg "e" = inr (VStr "balanceUpdate") ->
  getitem msg "a" = inr a ->
  hash_key a = inr k ->
  (is_Some (balances (cache m) !! k) ->
     exists m',
       _process_user_socket fuel msg m = Returned tt m' /\
       balances (cache m') !! k = None /\
       forall k', k' <> k -> balances (cache m') !! k' = balances (cache m) !! k') /\
  (balances (cache m) !! k = None ->
     exists m',
       _process_user_socket fuel msg m = Raised (KeyError k) m' /\
       balances (cache m') = balances (cache m)).
Proof.
  intros He Ha Hk. unfold _process_user_socket. rewrite He, Ha. cbn.
  rewrite Hk. cbn. unfold del_item. split.
  - intros [x Hx]. rewrite Hx. eexists. split; [done|]. cbn.
    split; [apply lookup_delete_eq|]. intros k' Hne. by apply lookup_delete_ne.
  - intros Hnone. rewrite Hnone. eexists. by split.
Qed.

Lemma most_recent_elem k x updates :
  most_recent k updates = Some x -> (k, x) ∈ updates.
Proof.
  induction updates as [|[k' x'] later IH]; cbn; [done|].
  destruct (most_recent k later) as [y|].
  - intros [= ->]. right. by apply IH.
  - case_decide as Hk; [|done]. intros [= ->]. subst. left.
Qed.

Lemma most_recent_listed k updates :
  k ∈ updates.*1 -> is_Some (most_recent k updates).
Proof.
  induction updates as [|[k' x'] later IH]; cbn.
  - by intros ?%elem_of_nil.
  - intros [Heq|Hin]%elem_of_cons.
    + cbn in Heq. subst k'. destruct (most_recent k later); [done|].
      by rewrite decide_True.
    + destruct (IH Hin) as [y ->]. done.
Qed.

Lemma most_recent_unlisted k updates :
  k ∉ updates.*1 -> most_recent k updates = None.
Proof.
  intros Hk. destruct (most_recent k updates) as [x|] eqn:Hx; [|done].
  exfalso. apply Hk. apply most_recent_elem in Hx.
  apply list_elem_of_fmap. by exists (k, x).
Qed.

Lemma most_recent_NoDup k x updates :
  NoDup updates.*1 -> (k, x) ∈ updates -> most_recent k updates = Some x.
Proof.
  induction updates as [|[k' x'] later IH]; cbn.
  - by intros _ ?%elem_of_nil.
  - intros [Hk' Hnd]%NoDup_cons [[= -> ->]|Hin]%elem_of_cons.
    + by rewrite (most_recent_unlisted _ _ Hk'), decide_True.
    + by rewrite (IH Hnd Hin).
Qed.

(** C6. An [outboundAccountPosition] event whose [B] array is well formed
    leaves under every asset it lists a free amount the event gives for it
    (the one of its last entry for that asset, the only one when the array
    names no asset twice), and leaves every other balance, and the rest of
    the cache, as it was. *)
Theorem account_position_sets_listed_only fuel msg items updates m :
  getitem msg "e" = inr (VStr "outboundAccountPosition") ->
  getitem msg "B" = inr (VList items) ->
  Forall2 (reads "a" "f") items updates ->
  exists m',
    _process_user_socket fuel msg m = Returned tt m' /\
    (forall k, k ∈ updates.*1 ->
       exists x, (k, x) ∈ updates /\ most_recent k updates = Some x /\
                 balances (cache m') !! k = Some x) /\
    (NoDup updates.*1 ->
       forall k x, (k, x) ∈ updates -> balances (cache m') !! k = Some x) /\
    (forall k, k ∉ updates.*1 ->
       balances (cache m') !! k = balances (cache m) !! k) /\
    ticker_values (cache m') = ticker_values (cache m) /\
    orders (cache m') = orders (cache m).
Proof.
  intros He HB Hitems. unfold _process_user_socket. rewrite He, HB. cbn.
  rewrite (store_all_reads _ _ _ _ _ Hitems).
  eexists. split; [done|]. cbn.
  split; [|split; [|split; [|done]]].
  - intros k Hk. destruct (most_recent_listed _ _ Hk) as [x Hx].
    exists x. split; [by apply most_recent_elem|]. split; [done|].
    by rewrite assign_all_lookup, Hx.
  - intros Hnd k x Hin.
    by rewrite assign_all_lookup, (most_recent_NoDup _ _ _ Hnd Hin).
  - intros k Hk. by rewrite assign_all_lookup, (most_recent_unlisted _ _ Hk).
Qed.

(** C10. A user message with no [e] field makes the handler raise the
    [KeyError] of the lookup, after its log line and before anything else;
    a message whose [e] field holds a value that is none of the known kinds
    makes it return with nothing done but the log line. *)
Theorem user_message_without_kind_raises fuel m :
  (forall fields,
     field fields "e" = None ->
     _process_user_socket fuel (VObj fields) m =
       Raised (KeyError (KStr "e")) (emit (Log (UserSocketMessage (VObj fields))) m)) /\
  (forall msg kind,
     getitem msg "e" = inr kind ->
     unrecognized kind = true ->
     _process_user_socket fuel msg m =
       Returned tt (emit (Log (UserSocketMessage msg)) m)).
Proof.
  split.
  - intros fields Hnone. unfold _process_user_socket. cbn. by rewrite Hnone.
  - intros msg kind Hkind Hunk. unfold _process_user_socket. rewrite Hkind.
    unfold unrecognized in Hunk. cbn in Hunk.
    repeat (apply andb_prop in Hunk as [?%negb_true_iff Hunk]).
    by repeat match goal with Heq : eq_str kind _ = false |- _ => rewrite Heq; clear Heq end.
Qed.

(** *** Orders *)

Lemma execution_report_stores fuel ev o k m :
  getitem ev "e" = inr (VStr "executionReport") ->
  new_BinanceOrder ev = inr o ->
  hash_key (id o) = inr k ->
  exists m',
    _process_user_socket fuel ev m = Returned tt m' /\
    orders (cache m') = <[k := o]> (orders (cache m)).
Proof.
  intros He Ho Hk. unfold _process_user_socket. rewrite He, Ho. cbn.
  rewrite Hk. cbn. by eexists.
Qed.

Lemma ticker_keeps_orders fuel msg m :
  orders (cache (final (_process_ticker_values fuel msg m))) = orders (cache m).
Proof.
  unfold _process_ticker_values, _start_ticker_values_socket.
  destruct (is_ticker_error msg) as [e|[]]; [done| |].
  - match goal with |- context [start_subscription Ticker fuel ?m2] =>
      pose proof (start_cache Ticker fuel m2) as Hcache;
      destruct (start_subscription Ticker fuel m2) end;
      cbn in *; by rewrite Hcache.
  - destruct (iter msg) as [e|items]; [done|].
    by destruct (store_all "s" "c" items (ticker_values (cache m))) as [d [e|]].
Qed.

Lemma user_keeps_orders fuel msg m k :
  is_Some (orders (cache m) !! k) ->
  is_Some (orders (cache (final (_process_user_socket fuel msg m))) !! k).
Proof.
  intros Hk. unfold _process_user_socket, _start_user_socket.
  destruct (getitem msg "e") as [e|kind]; [done|].
  destruct (eq_str kind "error").
  { match goal with |- context [start_subscription User fuel ?m2] =>
      pose proof (start_cache User fuel m2) as Hcache;
      destruct (start_subscription User fuel m2) end;
      cbn in *; by rewrite Hcache. }
  destruct (eq_str kind "outboundAccountPosition").
  { destruct (b <~ getitem msg "B" ;; iter b) as [e|items]; [done|].
    by destruct (store_all "a" "f" items _) as [d [e|]]. }
  destruct (eq_str kind "balanceUpdate").
  { by destruct (a <~ getitem msg "a" ;; k0 <~ hash_key a ;; del_item k0 _) as [e|d]. }
  destruct (eq_str kind "executionReport"); [|done].
  destruct (order <~ new_BinanceOrder msg ;; k0 <~ hash_key (id order) ;; inr (k0, order))
    as [e|[k0 order]]; [done|].
  cbn. destruct (decide (k0 = k)) as [->|Hne].
  - rewrite lookup_insert_eq. by eexists.
  - by rewrite lookup_insert_ne.
Qed.

Lemma perform_keeps_orders fuel op m k :
  is_Some (orders (cache m) !! k) ->
  is_Some (orders (cache (perform fuel op m)) !! k).
Proof.
  intros Hk. destruct op as [| |msg|msg]; cbn.
  - unfold _start_ticker_values_socket. by rewrite start_cache.
  - unfold _start_user_socket. by rewrite start_cache.
  - by rewrite ticker_keeps_orders.
  - by apply user_keeps_orders.
Qed.

(** C5. Two [executionReport] events with the same order id, processed in
    order, leave under that id the record built from the second: the orders
    are those from before with that one entry set, whatever the first event
    was. And no operation of the subsystem, however it ends, takes an id out
    of the orders. *)
Theorem execution_report_overwrites fuel ev1 ev2 o1 o2 k m :
  getitem ev1 "e" = inr (VStr "executionReport") ->
  getitem ev2 "e" = inr (VStr "executionReport") ->
  new_BinanceOrder ev1 = inr o1 ->
  new_BinanceOrder ev2 = inr o2 ->
  hash_key (id o1) = inr k ->
  hash_key (id o2) = inr k ->
  (exists m1 m2,
     _process_user_socket fuel ev1 m = Returned tt m1 /\
     _process_user_socket fuel ev2 m1 = Returned tt m2 /\
     orders (cache m1) !! k = Some o1 /\
     orders (cache m2) !! k = Some o2 /\
     orders (cache m2) = <[k := o2]> (orders (cache m)) /\
     (o1 <> o2 -> orders (cache m2) !! k <> Some o1)) /\
  (forall n (ops : list operation) m0 k0,
     is_Some (orders (cache m0) !! k0) ->
     is_Some (orders (cache (foldl (fun acc op => perform n op acc) m0 ops)) !! k0)).
Proof.
  intros He1 He2 Ho1 Ho2 Hk1 Hk2. split.
  - destruct (execution_report_stores fuel ev1 o1 k m He1 Ho1 Hk1) as (m1 & Hrun1 & Hm1).
    destruct (execution_report_stores fuel ev2 o2 k m1 He2 Ho2 Hk2) as (m2 & Hrun2 & Hm2).
    exists m1, m2. split; [done|]. split; [done|].
    split; [by rewrite Hm1, lookup_insert_eq|].
    split; [by rewrite Hm2, lookup_insert_eq|].
    split; [by rewrite Hm2, Hm1, insert_insert_eq|].
    intros Hne. rewrite Hm2, lookup_insert_eq. congruence.
  - intros n ops. induction ops as [|op ops IH]; intros m0 k0 Hk0; [done|].
    cbn. apply IH. by apply perform_keeps_orders.
Qed.

End Properties.

(** ** The properties at work *)

Lemma start_without_handle_never_returns_witness :
  (forall b : unplugged, exists c b',
     start_socket Ticker b = (inr c, b') /\ truthy c = false) /\
  exists m',
    start_subscription Ticker 21 (fresh Unplugged) = OutOfFuel m' /\
    count (is_start_request Ticker) (journal m') =
      count (is_start_request Ticker) (journal (fresh Unplugged)) + 21.
Proof.
  assert (forall b : unplugged, exists c b',
            start_socket Ticker b = (inr c, b') /\ truthy c = false) as Hdeaf.
  { intros b. exists CFalse, b. split; reflexivity. }
  split; [exact Hdeaf|].
  apply (start_without_handle_never_returns Ticker Hdeaf 21 (fresh Unplugged)).
Defined.

(** The bound of [retry] does hold when it is exceptions it counts: one
    answer without a handle, then a transport that raises, is asked 21 times
    in all, and the start operation returns [None]. *)
Example start_gives_up_when_requests_raise :
  exists m',
    _start_ticker_values_socket 2 (fresh failing) = Returned CNone m' /\
    count (is_start_request Ticker) (journal m') = 21 /\
    count (fun e => match e with Sleep _ => true | _ => false end) (journal m') = 1.
Proof. eexists. split; [vm_compute; reflexivity|]. split; reflexivity. Qed.

(** After 20 failed requests the 21st is still made, by the last turn of
    the loop, and its handle is returned. *)
Example start_asks_a_21st_time :
  exists m',
    _start_ticker_values_socket 2 (fresh twenty_failures)
      = Returned (CPath "!ticker@arr") m' /\
    count (is_start_request Ticker) (journal m') = 21.
Proof. eexists. split; [vm_compute; reflexivity|reflexivity]. Qed.

(** A start request that raises at the first call is not caught: the start
    operation raises to its caller. *)
Example start_raises_when_first_request_raises :
  exists m',
    _start_user_socket 5
      (fresh {| pending := []; otherwise := inl (TransportError "refused") |})
    = Raised (TransportError "refused") m'.
Proof. eexists. vm_compute. reflexivity. Qed.

Lemma recovery_restarts_then_clears_witness :
  in_band_error Ticker error_msg /\
  process Ticker 1 error_msg holding = Returned tt recovered /\
  ticker_values (cache holding) !! KStr "BTC" = Some 9%Z /\
  ticker_values (cache recovered) = ∅ /\
  balances (cache recovered) = balances (cache holding) /\
  conn_key User recovered = conn_key User holding /\
  exists run,
    journal recovered =
      journal holding
        ++ [Log (recovery_line Ticker error_msg); StopSocket (conn_key Ticker holding)]
        ++ (Log (StartingSocket Ticker) :: StartSocket Ticker :: run) ++ [Clear Ticker] /\
    restart_before_clear Ticker
      ([Log (recovery_line Ticker error_msg); StopSocket (conn_key Ticker holding)]
         ++ (Log (StartingSocket Ticker) :: StartSocket Ticker :: run) ++ [Clear Ticker]).
Proof.
  assert (in_band_error Ticker error_msg) as Herr by reflexivity.
  assert (process Ticker 1 error_msg holding = Returned tt recovered) as Hrun.
  { vm_compute. reflexivity. }
  split; [exact Herr|]. split; [exact Hrun|]. split; [reflexivity|].
  destruct (recovery_restarts_then_clears Ticker 1 error_msg holding recovered Herr Hrun)
    as (c & m3 & run & _ & _ & _ & _ & _ & _ & Hother & [Hcleared Hbalances] & _ & _
        & Hj & Horder & _).
  split; [exact Hcleared|]. split; [exact Hbalances|]. split; [exact Hother|].
  exists run. split; [exact Hj|exact Horder].
Defined.

(** C2, as the specification words it, fails: recovering from [error_msg]
    the ticker handler asks the transport to start the stream before it
    clears the prices. *)
Lemma recovery_clears_after_restart_counterexample :
  in_band_error Ticker error_msg /\
  process Ticker 1 error_msg holding = Returned tt recovered /\
  journal recovered =
    [Log (TickerSocketError error_msg); StopSocket (CPath "!ticker@arr");
     Log (StartingSocket Ticker); StartSocket Ticker; Clear Ticker] /\
  ~ clear_before_restart Ticker (journal recovered).
Proof.
  split; [reflexivity|]. split; [reflexivity|]. split; [reflexivity|].
  intros (i & j & l & _ & Hj & Hl & _ & Hlt).
  vm_compute in Hj, Hl. injection Hj as <-. injection Hl as <-. lia.
Qed.



Lemma ticker_last_write_wins_witness :
  Forall2 (Forall2 (reads "s" "c")) two_messages two_batches /\
  ticker_values (cache (fresh willing)) = ∅ /\
  exists m',
    deliver (_process_ticker_values 0) (VList <$> two_messages) (fresh willing)
      = Returned tt m' /\
    forall k, ticker_values (cache m') !! k = most_recent k (concat two_batches).
Proof.
  assert (Forall2 (Forall2 (reads "s" "c")) two_messages two_batches) as Hwf.
  { repeat constructor. }
  split; [exact Hwf|]. split; [reflexivity|].
  apply (ticker_last_write_wins 0 two_messages two_batches (fresh willing) Hwf).
  reflexivity.
Defined.

Example two_messages_prices :
  exists m',
    deliver (_process_ticker_values 0) (VList <$> two_messages) (fresh willing)
      = Returned tt m' /\
    ticker_values (cache m') !! KStr "BTC" = Some 13%Z /\
    ticker_values (cache m') !! KStr "ETH" = Some 3%Z /\
    ticker_values (cache m') !! KStr "XRP" = None.
Proof. eexists. split; [vm_compute; reflexivity|]. repeat split. Qed.

Lemma ticker_malformed_price_raises_witness :
  malformed_price (update "BTC" "x") "x" /\
  exists e m',
    _process_ticker_values 0
      (VList ([update "ETH" "3"] ++ update "BTC" "x" :: [update "ADA" "1"])) holding
      = Raised e m' /\
    (forall updates,
       Forall2 (reads "s" "c") [update "ETH" "3"] updates ->
       Forall is_object [update "ADA" "1"] ->
       e = ValueError "x").
Proof.
  assert (malformed_price (F:=Z) (update "BTC" "x") "x") as Hbad.
  { split; reflexivity. }
  split; [exact Hbad|].
  apply (ticker_malformed_price_raises 0 [update "ETH" "3"] (update "BTC" "x")
           [update "ADA" "1"] "x" holding Hbad).
Defined.

Lemma ticker_not_atomic_witness :
  Forall2 (reads "s" "c") [update "ETH" "3"] [(KStr "ETH", 3%Z)] /\
  malformed_price (update "BTC" "x") "x" /\
  Forall is_object [update "ADA" "1"] /\
  exists m',
    _process_ticker_values 0
      (VList ([update "ETH" "3"] ++ update "BTC" "x" :: [update "ADA" "1"])) holding
      = Raised (ValueError "x") m' /\
    ticker_values (cache m') !! KStr "ETH" = Some 3%Z /\
    ticker_values (cache m') <> ticker_values (cache holding).
Proof.
  assert (Forall2 (reads (F:=Z) "s" "c") [update "ETH" "3"] [(KStr "ETH", 3%Z)]) as Hpre.
  { repeat constructor. }
  assert (malformed_price (F:=Z) (update "BTC" "x") "x") as Hbad.
  { split; reflexivity. }
  assert (Forall is_object [update "ADA" "1"]) as Hpost.
  { repeat constructor. eexists. reflexivity. }
  split; [exact Hpre|]. split; [exact Hbad|]. split; [exact Hpost|].
  destruct (ticker_not_atomic 0 [update "ETH" "3"] (update "BTC" "x")
              [update "ADA" "1"] "x" [(KStr "ETH", 3%Z)] holding Hpre Hbad Hpost)
    as (m' & Hrun & _ & Hheld & Hchanged).
  exists m'. split; [exact Hrun|].
  split; [apply Hheld; reflexivity|].
  apply (Hchanged (KStr "ETH") 3%Z); [reflexivity|]. vm_compute. discriminate.
Defined.

Lemma balance_update_deletes_or_raises_witness :
  getitem balance_update_msg "e" = inr (VStr "balanceUpdate") /\
  getitem balance_update_msg "a" = inr (VStr "BTC") /\
  hash_key (VStr "BTC") = inr (KStr "BTC") /\
  is_Some (balances (cache holding) !! KStr "BTC") /\
  exists m',
    _process_user_socket 0 balance_update_msg holding = Returned tt m' /\
    balances (cache m') !! KStr "BTC" = None /\
    forall k', k' <> KStr "BTC" ->
      balances (cache m') !! k' = balances (cache holding) !! k'.
Proof.
  assert (is_Some (balances (cache holding) !! KStr "BTC")) as Hheld.
  { exists 5%Z. reflexivity. }
  split; [reflexivity|]. split; [reflexivity|]. split; [reflexivity|].
  split; [exact Hheld|].
  apply (balance_update_deletes_or_raises 0 balance_update_msg (VStr "BTC")
           (KStr "BTC") holding eq_refl eq_refl eq_refl).
  exact Hheld.
Defined.

(** The same event for an asset the cache does not hold raises. *)
Example balance_update_absent_raises :
  exists m',
    _process_user_socket 0 balance_update_msg (fresh willing)
      = Raised (KeyError (KStr "BTC")) m' /\
    balances (cache m') = ∅.
Proof. eexists. split; [vm_compute; reflexivity|reflexivity]. Qed.

Lemma execution_report_overwrites_witness :
  let ev1 := report 7 "NEW" "0" in
  let ev2 := report 7 "FILLED" "6" in
  let o1 := order_of 7 "NEW" 0 ev1 in
  let o2 := order_of 7 "FILLED" 6 ev2 in
  getitem ev1 "e" = inr (VStr "executionReport") /\
  getitem ev2 "e" = inr (VStr "executionReport") /\
  new_BinanceOrder ev1 = inr o1 /\
  new_BinanceOrder ev2 = inr o2 /\
  hash_key (id o1) = inr (KInt 7) /\
  hash_key (id o2) = inr (KInt 7) /\
  exists m1 m2,
    _process_user_socket 0 ev1 holding = Returned tt m1 /\
    _process_user_socket 0 ev2 m1 = Returned tt m2 /\
    orders (cache m1) !! KInt 7 = Some o1 /\
    orders (cache m2) !! KInt 7 = Some o2 /\
    orders (cache m2) = <[KInt 7 := o2]> (orders (cache holding)) /\
    (o1 <> o2 -> orders (cache m2) !! KInt 7 <> Some o1).
Proof.
  intros ev1 ev2 o1 o2.
  repeat (split; [reflexivity|]).
  apply (execution_report_overwrites 0 ev1 ev2 o1 o2 (KInt 7) holding);
    reflexivity.
Defined.

Lemma account_position_sets_listed_only_witness :
  getitem position_msg "e" = inr (VStr "outboundAccountPosition") /\
  getitem position_msg "B" = inr (VList [balance "BTC" "2"; balance "ETH" "40"]) /\
  Forall2 (reads "a" "f") [balance "BTC" "2"; balance "ETH" "40"]
    [(KStr "BTC", 2%Z); (KStr "ETH", 40%Z)] /\
  exists m',
    _process_user_socket 0 position_msg holding = Returned tt m' /\
    balances (cache m') !! KStr "BTC" = Some 2%Z /\
    balances (cache m') !! KStr "ETH" = Some 40%Z /\
    balances (cache m') !! KStr "XRP" = balances (cache holding) !! KStr "XRP".
Proof.
  assert (Forall2 (reads (F:=Z) "a" "f") [balance "BTC" "2"; balance "ETH" "40"]
            [(KStr "BTC", 2%Z); (KStr "ETH", 40%Z)]) as Hwf.
  { repeat constructor. }
  split; [reflexivity|]. split; [reflexivity|]. split; [exact Hwf|].
  destruct (account_position_sets_listed_only 0 position_msg
              [balance "BTC" "2"; balance "ETH" "40"]
              [(KStr "BTC", 2%Z); (KStr "ETH", 40%Z)] holding eq_refl eq_refl Hwf)
    as (m' & Hrun & _ & Hlisted & Hothers & _).
  assert (NoDup [(KStr "BTC", 2%Z); (KStr "ETH", 40%Z)].*1) as Hnd.
  { apply (bool_decide_unpack _). vm_compute. exact I. }
  exists m'. split; [exact Hrun|].
  split; [apply (Hlisted Hnd); apply (bool_decide_unpack _); vm_compute; exact I|].
  split; [apply (Hlisted Hnd); apply (bool_decide_unpack _); vm_compute; exact I|].
  apply Hothers. apply (bool_decide_unpack _). vm_compute. exact I.
Defined.

Lemma user_message_without_kind_raises_witness :
  field [("a", VStr "BTC")] "e" = None /\
  _process_user_socket 0 (VObj [("a", VStr "BTC")]) holding
    = Raised (KeyError (KStr "e"))
        (emit (Log (UserSocketMessage (VObj [("a", VStr "BTC")]))) holding) /\
  unrecognized (VStr "listStatus") = true /\
  _process_user_socket 0 (VObj [("e", VStr "listStatus")]) holding
    = Returned tt (emit (Log (UserSocketMessage (VObj [("e", VStr "listStatus")]))) holding).
Proof.
  destruct (user_message_without_kind_raises (F:=Z) 0 holding) as [Hnone Hother].
  split; [reflexivity|]. split; [apply Hnone; reflexivity|].
  split; [reflexivity|]. apply (Hother _ (VStr "listStatus")); reflexivity.
Defined.

(** ** Further properties *)

Section Further.
Context {F : Type} `{PyFloat F} {BM : Type} `{Transport BM}.

Implicit Types (m : BinanceStreamManager F BM) (d : gmap pykey F).
Implicit Types (items : list value) (updates : list (pykey * F)).

(** *** The socket manager *)

Lemma _start_socket_keeps url path prefix (conns : gmap string connection) p c :
  conns !! p = Some c ->
  (_start_socket url path prefix conns).2 !! p = Some c.
Proof.
  intros Hp. unfold _start_socket. case_bool_decide as Hheld; cbn; [done|].
  rewrite lookup_insert_ne; [done|]. intros ->. apply Hheld. by eexists.
Qed.

Lemma _start_socket_holds url path prefix (conns : gmap string connection) :
  is_Some ((_start_socket url path prefix conns).2 !! path).
Proof.
  unfold _start_socket. case_bool_decide as Hheld; cbn; [done|].
  rewrite lookup_insert_eq. by eexists.
Qed.

(** However many paths are started, in whatever order and however often, a
    connection once recorded is never replaced or dropped, every path asked
    for ends up with a connection, and asking for it again answers [False]
    and changes nothing. *)
Theorem start_paths_never_replaces url prefix paths (conns : gmap string connection) :
  (forall p c, conns !! p = Some c ->
     start_paths url prefix paths conns !! p = Some c) /\
  (forall p, p ∈ paths ->
     is_Some (start_paths url prefix paths conns !! p) /\
     _start_socket url p prefix (start_paths url prefix paths conns)
       = (CFalse, start_paths url prefix paths conns)).
Proof.
  assert (forall paths conns p c, conns !! p = Some c ->
            start_paths url prefix paths conns !! p = Some c) as Hkeep.
  { clear. intros paths. induction paths as [|path paths IH]; intros conns p c Hp; [done|].
    cbn. apply IH. by apply _start_socket_keeps. }
  split; [by apply Hkeep|].
  assert (forall p, p ∈ paths -> is_Some (start_paths url prefix paths conns !! p)) as Hheld.
  { revert conns. induction paths as [|path paths IH]; intros conns p Hin.
    - by apply elem_of_nil in Hin.
    - cbn. apply elem_of_cons in Hin as [->|Hin]; [|by apply IH].
      destruct (_start_socket_holds url path prefix conns) as [c Hc].
      exists c. by apply Hkeep. }
  intros p Hin. split; [by apply Hheld|].
  unfold _start_socket at 1. rewrite bool_decide_eq_true_2; [done|]. by apply Hheld.
Qed.

(** *** The start operations *)

(** What a start operation returns is a key that tests true, or [None]:
    the [False] and the empty path a transport may answer are never handed
    to the caller; and it returns only after asking the transport at least
    once. *)
Theorem start_returns_key_or_None k fuel m c m' :
  start_subscription k fuel m = Returned c m' ->
  (truthy c = true \/ c = CNone) /\
  count (is_start_request k) (journal m) + 1 <= count (is_start_request k) (journal m').
Proof.
  intros Hrun. split; [by eapply start_returned_key|].
  destruct (start_returned_journal _ _ _ _ _ Hrun) as (evs & -> & _).
  rewrite count_app, !count_cons. cbn.
  rewrite bool_decide_eq_true_2 by done. lia.
Qed.

(** A start operation, however it ends, leaves the cache and both stored
    keys as they were: storing the key is the caller's business. *)
Theorem start_changes_no_attribute k fuel m :
  cache (final (start_subscription k fuel m)) = cache m /\
  ticker_price_socket_conn_key (final (start_subscription k fuel m))
    = ticker_price_socket_conn_key m /\
  user_socket_conn_key (final (start_subscription k fuel m))
    = user_socket_conn_key m.
Proof.
  split; [apply start_cache|].
  split; [apply (start_conn_key k Ticker)|apply (start_conn_key k User)].
Qed.

(** *** Recovery from an in-band error *)

Lemma recovery_unfold k fuel msg m :
  in_band_error k msg ->
  exists line,
    process k fuel msg m =
      match start_subscription k fuel
              (do_stop_socket (conn_key k m) (emit (Log line) m)) with
      | Returned c m3 =>
          Returned tt
            (match k with
             | Ticker => clear_ticker_values
             | User => clear_balances
             end (with_conn_key k c m3))
      | Raised e m3 => Raised e m3
      | OutOfFuel m3 => OutOfFuel m3
      end.
Proof.
  intros Herr. destruct k; cbn in Herr |- *.
  - exists (TickerSocketError msg). unfold _process_ticker_values. by rewrite Herr.
  - destruct Herr as (kind & Hkind & Herr). exists (UserSocketMessage msg).
    unfold _process_user_socket. by rewrite Hkind, Herr.
Qed.

(** When the restart does not return but raises, the handler raises with
    it after the stop and before the clear: the collection is not cleared,
    nothing in the cache has changed, and the key is still the one of the
    socket just stopped. *)
Theorem recovery_that_raises_clears_nothing k fuel msg m e m' :
  in_band_error k msg ->
  process k fuel msg m = Raised e m' ->
  cache m' = cache m /\
  conn_key k m' = conn_key k m /\
  exists evs,
    journal m' = journal m ++ evs /\
    count is_stop evs = 1 /\
    count (is_clear k) evs = 0.
Proof.
  intros Herr Hrun.
  destruct (recovery_unfold k fuel msg m Herr) as (line & Hunfold).
  rewrite Hunfold in Hrun. clear Hunfold.
  set (m2 := do_stop_socket (conn_key k m) (emit (Log line) m)) in *.
  pose proof (start_cache k fuel m2) as Hcache.
  pose proof (start_conn_key k k fuel m2) as Hkey.
  destruct (start_journal k fuel m2) as (evs & Hj & Hevs).
  destruct (start_subscription k fuel m2) as [c m3|e3 m3|m3]; [done| |done].
  injection Hrun as -> ->. cbn in Hcache, Hkey, Hj.
  split; [done|]. split; [by destruct k|].
  exists ([Log line; StopSocket (conn_key k m)] ++ evs).
  split; [by rewrite Hj; cbn; rewrite <- !app_assoc|].
  rewrite !count_app, !count_cons. cbn.
  rewrite (count_none is_stop) by (by eapply starting_not_stop).
  by rewrite (count_none (is_clear k)) by (by eapply starting_not_clear).
Qed.

(** When the handler returns from an in-band error, the key it has stored
    tests true or is [None] (the restart gave up); the other subscription's
    key, the orders, the never-existing tickers and the other subscription's
    collection are as they were. *)
Theorem recovery_stores_key_or_None k fuel msg m m' :
  in_band_error k msg ->
  process k fuel msg m = Returned tt m' ->
  (truthy (conn_key k m') = true \/ conn_key k m' = CNone) /\
  conn_key (match k with Ticker => User | User => Ticker end) m'
    = conn_key (match k with Ticker => User | User => Ticker end) m /\
  orders (cache m') = orders (cache m) /\
  non_existent_tickers (cache m') = non_existent_tickers (cache m) /\
  match k with
  | Ticker => balances (cache m') = balances (cache m)
  | User => ticker_values (cache m') = ticker_values (cache m)
  end.
Proof.
  intros Herr Hrun.
  destruct (recovery_unfold k fuel msg m Herr) as (line & Hunfold).
  rewrite Hunfold in Hrun. clear Hunfold.
  set (m2 := do_stop_socket (conn_key k m) (emit (Log line) m)) in *.
  pose proof (start_cache k fuel m2) as Hcache.
  pose proof (start_conn_key k (match k with Ticker => User | User => Ticker end)
                fuel m2) as Hother.
  destruct (start_subscription k fuel m2) as [c m3|e3 m3|m3] eqn:Hstart; [|done..].
  injection Hrun as <-. cbn in Hcache, Hother.
  apply start_returned_key in Hstart.
  split; [by destruct k|].
  split; [destruct k; cbn in *; by rewrite Hother|].
  destruct k; cbn; by rewrite Hcache.
Qed.

(** *** What the handlers leave alone *)

(** A message that is not an in-band error never reaches the transport:
    however the handler ends, the socket manager and both keys are as they
    were, and the journal has gained nothing but the user handler's log
    line. *)
Theorem only_errors_reach_the_transport k fuel msg m :
  ~ in_band_error k msg ->
  bm (final (process k fuel msg m)) = bm m /\
  ticker_price_socket_conn_key (final (process k fuel msg m))
    = ticker_price_socket_conn_key m /\
  user_socket_conn_key (final (process k fuel msg m)) = user_socket_conn_key m /\
  journal (final (process k fuel msg m)) =
    journal m ++ match k with
                 | Ticker => []
                 | User => [Log (UserSocketMessage msg)]
                 end.
Proof.
  intros Hnot. destruct k; cbn in Hnot |- *.
  - unfold _process_ticker_values.
    destruct (is_ticker_error msg) as [e|[]]; [by rewrite app_nil_r|done|].
    destruct (iter msg) as [e|items]; [by rewrite app_nil_r|].
    destruct (store_all "s" "c" items (ticker_values (cache m))) as [d [e|]];
      by rewrite app_nil_r.
  - unfold _process_user_socket.
    destruct (getitem msg "e") as [e|kind] eqn:Hkind; [done|].
    destruct (eq_str kind "error") eqn:Herr; [exfalso; apply Hnot; eauto|].
    destruct (eq_str kind "outboundAccountPosition").
    { destruct (b <~ getitem msg "B" ;; iter b) as [e|items]; [done|].
      by destruct (store_all "a" "f" items _) as [d [e|]]. }
    destruct (eq_str kind "balanceUpdate").
    { by destruct (a <~ getitem msg "a" ;; k0 <~ hash_key a ;; del_item k0 _) as [e|d]. }
    destruct (eq_str kind "executionReport"); [|done].
    by destruct (order <~ new_BinanceOrder msg ;; k0 <~ hash_key (id order) ;; inr (k0, order))
      as [e|[k0 order]].
Qed.

Lemma ticker_keeps_balances fuel msg m :
  balances (cache (final (_process_ticker_values fuel msg m))) = balances (cache m) /\
  non_existent_tickers (cache (final (_process_ticker_values fuel msg m)))
    = non_existent_tickers (cache m).
Proof.
  unfold _process_ticker_values, _start_ticker_values_socket.
  destruct (is_ticker_error msg) as [e|[]]; [done| |].
  - match goal with |- context [start_subscription Ticker fuel ?m2] =>
      pose proof (start_cache Ticker fuel m2) as Hcache;
      destruct (start_subscription Ticker fuel m2) end;
      cbn in *; by rewrite Hcache.
  - destruct (iter msg) as [e|items]; [done|].
    by destruct (store_all "s" "c" items (ticker_values (cache m))) as [d [e|]].
Qed.

Lemma user_keeps_ticker_values fuel msg m :
  ticker_values (cache (final (_process_user_socket fuel msg m)))
    = ticker_values (cache m) /\
  non_existent_tickers (cache (final (_process_user_socket fuel msg m)))
    = non_existent_tickers (cache m).
Proof.
  unfold _process_user_socket, _start_user_socket.
  destruct (getitem msg "e") as [e|kind]; [done|].
  destruct (eq_str kind "error").
  { match goal with |- context [start_subscription User fuel ?m2] =>
      pose proof (start_cache User fuel m2) as Hcache;
      destruct (start_subscription User fuel m2) end;
      cbn in *; by rewrite Hcache. }
  destruct (eq_str kind "outboundAccountPosition").
  { destruct (b <~ getitem msg "B" ;; iter b) as [e|items]; [done|].
    by destruct (store_all "a" "f" items _) as [d [e|]]. }
  destruct (eq_str kind "balanceUpdate").
  { by destruct (a <~ getitem msg "a" ;; k0 <~ hash_key a ;; del_item k0 _) as [e|d]. }
  destruct (eq_str kind "executionReport"); [|done].
  by destruct (order <~ new_BinanceOrder msg ;; k0 <~ hash_key (id order) ;; inr (k0, order))
    as [e|[k0 order]].
Qed.

(** No operation, however it ends, changes the set of never-existing
    tickers; the start operations change nothing in the cache, the ticker
    handler neither balances nor orders, the user handler no price. *)
Theorem collections_are_independent fuel op m :
  non_existent_tickers (cache (perform fuel op m)) = non_existent_tickers (cache m) /\
  match op with
  | StartTicker | StartUser => cache (perform fuel op m) = cache m
  | TickerMessage _ =>
      balances (cache (perform fuel op m)) = balances (cache m) /\
      orders (cache (perform fuel op m)) = orders (cache m)
  | UserMessage _ =>
      ticker_values (cache (perform fuel op m)) = ticker_values (cache m)
  end.
Proof.
  destruct op as [| |msg|msg]; cbn.
  - unfold _start_ticker_values_socket. by rewrite start_cache.
  - unfold _start_user_socket. by rewrite start_cache.
  - destruct (ticker_keeps_balances fuel msg m) as [Hb Hn].
    by rewrite Hb, Hn, ticker_keeps_orders.
  - by destruct (user_keeps_ticker_values fuel msg m) as [-> ->].
Qed.

(** A ticker message that is one object instead of an array, and is not an
    in-band error, is never applied: with any field at all the handler
    raises [TypeError] at the first field name, with none it returns; the
    cache and the journal are as they were. *)
Theorem ticker_object_is_not_applied fuel fields m :
  is_ticker_error (VObj fields) <> inr true ->
  exists m',
    _process_ticker_values fuel (VObj fields) m =
      match fields with
      | [] => Returned tt m'
      | _ :: _ => Raised TypeError m'
      end /\
    cache m' = cache m /\ journal m' = journal m.
Proof.
  intros Hnot. unfold _process_ticker_values.
  destruct (is_ticker_error (VObj fields)) as [e|[]] eqn:Herr.
  - unfold is_ticker_error in Herr. cbn in Herr.
    case_bool_decide as Hsome; [|done].
    destruct Hsome as [v Hv]. by rewrite Hv in Herr.
  - done.
  - cbn. destruct fields as [|[name v] fields]; cbn.
    + eexists. split; [done|]. by destruct (cache m).
    + eexists. split; [done|]. by destruct (cache m).
Qed.

(** When the user handler raises on a message that is not an account
    position, the cache is as it was before the message. *)
Theorem user_fault_changes_nothing fuel msg m e m' :
  _process_user_socket fuel msg m = Raised e m' ->
  (forall kind, getitem msg "e" = inr kind ->
     eq_str kind "outboundAccountPosition" = false) ->
  cache m' = cache m.
Proof.
  unfold _process_user_socket, _start_user_socket. intros Hrun Hkind.
  destruct (getitem msg "e") as [e0|kind]; [by injection Hrun as _ <-|].
  destruct (eq_str kind "error").
  { match type of Hrun with context [start_subscription User fuel ?m2] =>
      pose proof (start_cache User fuel m2) as Hcache;
      destruct (start_subscription User fuel m2) end; [done| |done].
    injection Hrun as _ <-. cbn in Hcache. by rewrite Hcache. }
  rewrite (Hkind kind eq_refl) in Hrun.
  destruct (eq_str kind "balanceUpdate").
  { destruct (a <~ getitem msg "a" ;; k0 <~ hash_key a ;; del_item k0 _) as [e0|d];
      [by injection Hrun as _ <-|done]. }
  destruct (eq_str kind "executionReport"); [|done].
  destruct (order <~ new_BinanceOrder msg ;; k0 <~ hash_key (id order) ;; inr (k0, order))
    as [e0|[k0 order]]; [by injection Hrun as _ <-|done].
Qed.

(** An account position is applied entry by entry: when an entry cannot be
    read and those before it can, the handler raises that entry's fault
    with the balances of the earlier entries already set. *)
Theorem account_position_not_atomic fuel msg pre t post updates e m :
  getitem msg "e" = inr (VStr "outboundAccountPosition") ->
  getitem msg "B" = inr (VList (pre ++ t :: post)) ->
  Forall2 (reads "a" "f") pre updates ->
  read_update "a" "f" t = inl e ->
  exists m',
    _process_user_socket fuel msg m = Raised e m' /\
    balances (cache m') = assign_all updates (balances (cache m)) /\
    (forall k x, most_recent k updates = Some x ->
       balances (cache m') !! k = Some x).
Proof.
  intros He HB Hpre Ht. unfold _process_user_socket. rewrite He, HB. cbn.
  rewrite (store_all_stops _ _ _ _ _ _ _ _ Hpre Ht).
  eexists. split; [done|]. cbn. split; [done|].
  intros k x Hk. by rewrite assign_all_lookup, Hk.
Qed.

(** *** How messages compose *)

Lemma assign_all_twice updates d :
  assign_all updates (assign_all updates d) = assign_all updates d.
Proof.
  apply map_eq. intros k. rewrite !assign_all_lookup.
  by destruct (most_recent k updates).
Qed.

(** Delivering a well-formed update message a second time changes nothing:
    the cache after the second delivery is the cache after the first, for a
    ticker array as for an account position. *)
Theorem update_messages_are_idempotent fuel items updates m :
  (Forall2 (reads "s" "c") items updates ->
   exists m1 m2,
     _process_ticker_values fuel (VList items) m = Returned tt m1 /\
     _process_ticker_values fuel (VList items) m1 = Returned tt m2 /\
     cache m2 = cache m1) /\
  (forall msg,
     getitem msg "e" = inr (VStr "outboundAccountPosition") ->
     getitem msg "B" = inr (VList items) ->
     Forall2 (reads "a" "f") items updates ->
     exists m1 m2,
       _process_user_socket fuel msg m = Returned tt m1 /\
       _process_user_socket fuel msg m1 = Returned tt m2 /\
       cache m2 = cache m1).
Proof.
  split.
  - intros Hwf. pose proof (reads_objects _ _ _ _ Hwf) as Hobj.
    eexists _, _. rewrite !ticker_updates_run by done.
    rewrite (store_all_reads _ _ _ _ _ Hwf). split; [done|]. cbn.
    rewrite (store_all_reads _ _ _ _ _ Hwf). split; [done|]. cbn.
    by rewrite assign_all_twice.
  - intros msg He HB Hwf. unfold _process_user_socket. rewrite He, HB. cbn.
    rewrite (store_all_reads _ _ _ _ _ Hwf).
    eexists _, _. split; [done|]. cbn.
    rewrite (store_all_reads _ _ _ _ _ Hwf). split; [done|]. cbn.
    by rewrite assign_all_twice.
Qed.

Lemma account_position_run fuel msg items updates m :
  getitem msg "e" = inr (VStr "outboundAccountPosition") ->
  getitem msg "B" = inr (VList items) ->
  Forall2 (reads "a" "f") items updates ->
  _process_user_socket fuel msg m =
    Returned tt
      (with_cache (with_balances (assign_all updates (balances (cache m))) (cache m))
         (emit (Log (UserSocketMessage msg)) m)).
Proof.
  intros He HB Hwf. unfold _process_user_socket. rewrite He, HB. cbn.
  by rewrite (store_all_reads _ _ _ _ _ Hwf).
Qed.

Lemma balance_update_run fuel msg a k m :
  getitem msg "e" = inr (VStr "balanceUpdate") ->
  getitem msg "a" = inr a ->
  hash_key a = inr k ->
  _process_user_socket fuel msg m =
    match del_item k (balances (cache m)) with
    | inl e => Raised e (emit (Log (UserSocketMessage msg)) m)
    | inr d =>
        Returned tt
          (with_cache (with_balances d (cache m)) (emit (Log (UserSocketMessage msg)) m))
    end.
Proof.
  intros He Ha Hk. unfold _process_user_socket. rewrite He, Ha. cbn.
  by rewrite Hk.
Qed.

(** A balance update consumes the entry: after an account position that
    lists the asset, a [balanceUpdate] for it returns and the asset is gone,
    and the same [balanceUpdate] delivered again raises [KeyError] and
    leaves the balances as they are. *)
Theorem balance_update_consumes_the_entry fuel pos upd items updates a k m :
  getitem pos "e" = inr (VStr "outboundAccountPosition") ->
  getitem pos "B" = inr (VList items) ->
  Forall2 (reads "a" "f") items updates ->
  k ∈ updates.*1 ->
  getitem upd "e" = inr (VStr "balanceUpdate") ->
  getitem upd "a" = inr a ->
  hash_key a = inr k ->
  exists m1 m2 m3,
    _process_user_socket fuel pos m = Returned tt m1 /\
    _process_user_socket fuel upd m1 = Returned tt m2 /\
    balances (cache m2) !! k = None /\
    _process_user_socket fuel upd m2 = Raised (KeyError k) m3 /\
    balances (cache m3) = balances (cache m2).
Proof.
  intros He HB Hwf Hk Hue Hua Hhash.
  destruct (most_recent_listed _ _ Hk) as [x Hx].
  eexists _, _, _.
  split; [by apply (account_position_run _ _ _ _ _ He HB Hwf)|].
  split.
  { rewrite (balance_update_run _ _ _ _ _ Hue Hua Hhash). cbn.
    unfold del_item. by rewrite assign_all_lookup, Hx. }
  cbn. split; [apply lookup_delete_eq|].
  rewrite (balance_update_run _ _ _ _ _ Hue Hua Hhash). cbn.
  unfold del_item. rewrite lookup_delete_eq. by split.
Qed.

Lemma latest_lookup {V : Type} (entries : list (pykey * V)) (d : gmap pykey V) k :
  foldl (fun acc u => <[u.1 := u.2]> acc) d entries !! k =
    match latest k entries with
    | Some x => Some x
    | None => d !! k
    end.
Proof.
  revert d. induction entries as [|[k' x] later IH]; intros d; [done|].
  cbn. rewrite IH. destruct (latest k later); [done|].
  destruct (decide (k' = k)) as [->|Hne].
  - apply lookup_insert_eq.
  - by apply lookup_insert_ne.
Qed.

Lemma execution_report_run fuel ev (entry : pykey * BinanceOrder F) m :
  reports ev entry ->
  _process_user_socket fuel ev m =
    Returned tt
      (with_cache (with_orders (<[entry.1 := entry.2]> (orders (cache m))) (cache m))
         (emit (Log (UserSocketMessage ev)) m)).
Proof.
  intros (He & Ho & Hk). unfold _process_user_socket. rewrite He, Ho. cbn.
  by rewrite Hk.
Qed.

(** Over any run of well-formed execution reports the orders are
    last-write-wins per id: every id holds the record of the last report
    that carried it, the ids no report carried hold what they held, and
    balances and prices are untouched. *)
Theorem orders_last_write_wins fuel (evs : list value)
    (entries : list (pykey * BinanceOrder F)) m :
  Forall2 reports evs entries ->
  exists m',
    deliver (_process_user_socket fuel) evs m = Returned tt m' /\
    (forall k, orders (cache m') !! k =
       match latest k entries with
       | Some o => Some o
       | None => orders (cache m) !! k
       end) /\
    balances (cache m') = balances (cache m) /\
    ticker_values (cache m') = ticker_values (cache m).
Proof.
  intros Hall.
  assert (exists m',
    deliver (_process_user_socket fuel) evs m = Returned tt m' /\
    orders (cache m') = foldl (fun acc u => <[u.1 := u.2]> acc) (orders (cache m)) entries /\
    balances (cache m') = balances (cache m) /\
    ticker_values (cache m') = ticker_values (cache m)) as (m' & Hrun & Ho & Hb & Ht).
  { revert m. induction Hall as [|ev entry evs entries Hev _ IH]; intros m.
    - by exists m.
    - cbn [deliver]. rewrite (execution_report_run fuel ev entry m Hev).
      destruct (IH (with_cache
        (with_orders (<[entry.1 := entry.2]> (orders (cache m))) (cache m))
        (emit (Log (UserSocketMessage ev)) m))) as (m' & Hrun & Hom & Hb & Ht).
      exists m'. by rewrite Hrun, Hom, Hb, Ht. }
  exists m'. split; [done|]. split; [|done].
  intros k. by rewrite Ho, latest_lookup.
Qed.

(** No price from before an in-band error survives it: once the handler has
    returned from the error, the prices after any run of well-formed ticker
    messages are those of that run alone. *)
Theorem prices_do_not_survive_an_error fuel msg (msgs : list (list value))
    (batches : list (list (pykey * F))) m m1 :
  in_band_error Ticker msg ->
  _process_ticker_values fuel msg m = Returned tt m1 ->
  Forall2 (Forall2 (reads "s" "c")) msgs batches ->
  exists m',
    deliver (_process_ticker_values fuel) (msg :: (VList <$> msgs)) m = Returned tt m' /\
    forall k, ticker_values (cache m') !! k = most_recent k (concat batches).
Proof.
  intros Herr Hrun Hall. cbn [deliver]. rewrite Hrun.
  destruct (recovery_journal Ticker _ _ _ _ Herr Hrun)
    as (_ & _ & _ & _ & _ & _ & _ & _ & _ & Hcache).
  destruct (ticker_messages_run fuel msgs batches m1 Hall) as (m' & Hdel & Hprices).
  exists m'. split; [done|]. intros k.
  rewrite Hprices, assign_all_lookup, Hcache. cbn. rewrite lookup_empty.
  by destruct (most_recent k (concat batches)).
Qed.

(** *** [retry] *)

Lemma retry_loop_raised func budget attempts m e m' :
  retry_loop func budget attempts m = Raised e m' -> is_exception e = false.
Proof.
  revert attempts m. induction budget as [|budget IH]; intros attempts m; cbn [retry_loop].
  - by case_bool_decide.
  - case_bool_decide; [|done].
    destruct (func m) as [c1 m1|e1 m1|m1]; [done| |done].
    destruct (is_exception e1) eqn:He1; [apply IH|]. by intros [= <- <-].
Qed.

(** No [Exception] comes out of [retry]: what it raises, at any attempt, is
    not one (a [KeyboardInterrupt], a [SystemExit]); and when every call of
    the function raises an [Exception], [retry] returns [None]. *)
Theorem retry_lets_no_Exception_out func m :
  (forall e m', retry func m = Raised e m' -> is_exception e = false) /\
  ((forall m0, exists e m1, func m0 = Raised e m1 /\ is_exception e = true) ->
   exists m', retry func m = Returned CNone m').
Proof.
  split.
  - intros e m'. apply retry_loop_raised.
  - intros Hraise. by apply retry_gives_up.
Qed.

(** *** Construction *)

(** [__init__] step by step. With both streams opened at the first request:
    the ticker request is made first, on the socket manager as given, the
    user request second, on the manager the first request left, both keys
    are stored and the socket manager is started last. A first ticker
    request that raises ends the construction at once: no user request, no
    start of the socket manager; so does a first user request that raises.
    And whenever [__init__] returns, the cache is the one it was given, each
    key tests true or is [None] (no result is checked), and the journal is
    a ticker start, beginning with its request, followed by a user start,
    beginning with its request. *)
Theorem init_starts_ticker_then_user `{EventLoop BM} fuel (c : BinanceCache F) (b : BM) :
  (forall c1 b1 c2 b2,
     start_socket Ticker b = (inr c1, b1) -> truthy c1 = true ->
     start_socket User b1 = (inr c2, b2) -> truthy c2 = true ->
     __init__ (S fuel) c b =
       Returned tt
         {| cache := c; bm := bm_start b2;
            ticker_price_socket_conn_key := c1; user_socket_conn_key := c2;
            journal := [Log (StartingSocket Ticker); StartSocket Ticker;
                        Log (StartingSocket User); StartSocket User] |}) /\
  (forall e b1,
     start_socket Ticker b = (inl e, b1) ->
     __init__ (S fuel) c b =
       Raised e
         {| cache := c; bm := b1;
            ticker_price_socket_conn_key := CNone; user_socket_conn_key := CNone;
            journal := [Log (StartingSocket Ticker); StartSocket Ticker] |}) /\
  (forall c1 b1 e b2,
     start_socket Ticker b = (inr c1, b1) -> truthy c1 = true ->
     start_socket User b1 = (inl e, b2) ->
     __init__ (S fuel) c b =
       Raised e
         {| cache := c; bm := b2;
            ticker_price_socket_conn_key := c1; user_socket_conn_key := CNone;
            journal := [Log (StartingSocket Ticker); StartSocket Ticker;
                        Log (StartingSocket User); StartSocket User] |}) /\
  (forall m',
     __init__ fuel c b = Returned tt m' ->
     cache m' = c /\
     (truthy (ticker_price_socket_conn_key m') = true
        \/ ticker_price_socket_conn_key m' = CNone) /\
     (truthy (user_socket_conn_key m') = true \/ user_socket_conn_key m' = CNone) /\
     exists run1 run2,
       journal m' =
         (Log (StartingSocket Ticker) :: StartSocket Ticker :: run1)
           ++ (Log (StartingSocket User) :: StartSocket User :: run2) /\
       Forall (fun e => starting_effect Ticker e = true) run1 /\
       Forall (fun e => starting_effect User e = true) run2).
Proof.
  split; [|split; [|split]].
  - intros c1 b1 c2 b2 Ht Hc1 Hu Hc2.
    unfold __init__, _start_ticker_values_socket, _start_user_socket.
    cbn. rewrite Ht, Hc1. cbn. by rewrite Hu, Hc2.
  - intros e b1 Ht.
    unfold __init__, _start_ticker_values_socket, _start_user_socket.
    cbn. by rewrite Ht.
  - intros c1 b1 e b2 Ht Hc1 Hu.
    unfold __init__, _start_ticker_values_socket, _start_user_socket.
    cbn. rewrite Ht, Hc1. cbn. by rewrite Hu.
  - intros m'. unfold __init__, _start_ticker_values_socket, _start_user_socket.
    set (self := {| cache := c; bm := b; ticker_price_socket_conn_key := CNone;
                    user_socket_conn_key := CNone; journal := [] |}).
    pose proof (start_cache Ticker fuel self) as Hc1.
    destruct (start_subscription Ticker fuel self) as [key1 m1|e1 m1|m1] eqn:Hs1;
      [|done..].
    pose proof (start_cache User fuel (with_conn_key Ticker key1 m1)) as Hc2.
    pose proof (start_conn_key User Ticker fuel (with_conn_key Ticker key1 m1)) as Hk2.
    destruct (start_subscription User fuel (with_conn_key Ticker key1 m1))
      as [key2 m2|e2 m2|m2] eqn:Hs2; [|done..].
    intros [= <-]. cbn in Hc1, Hc2, Hk2 |- *.
    destruct (start_returned_journal _ _ _ _ _ Hs1) as (run1 & Hj1 & Hrun1).
    destruct (start_returned_journal _ _ _ _ _ Hs2) as (run2 & Hj2 & Hrun2).
    split; [congruence|]. rewrite Hk2.
    split; [by eapply start_returned_key|].
    split; [by eapply start_returned_key|].
    exists run1, run2. cbn in Hj1, Hj2. by rewrite Hj2, Hj1.
Qed.

End Further.

(** *** [retry] over a scripted transport *)

Lemma retry_loop_scripted {F : Type} `{PyFloat F} k fuel errs :
  Forall (fun e => is_exception e = true) errs ->
  forall answers oth attempts budget (m : BinanceStreamManager F scripted),
  bm m = {| pending := (inl <$> errs) ++ answers; otherwise := oth |} ->
  20 <= attempts + budget ->
  (forall h tail,
     attempts + length errs < 20 ->
     answers = inr (CPath h) :: tail ->
     h <> EmptyString ->
     retry_loop (start_subscription k (S fuel)) budget attempts m =
       Returned (CPath h)
         {| cache := cache m;
            bm := {| pending := tail; otherwise := oth |};
            ticker_price_socket_conn_key := ticker_price_socket_conn_key m;
            user_socket_conn_key := user_socket_conn_key m;
            journal := journal m ++ attempts_log k attempts errs
                         ++ [Log (StartingSocket k); StartSocket k] |}) /\
  (attempts + length errs = 20 ->
     retry_loop (start_subscription k (S fuel)) budget attempts m =
       Returned CNone
         {| cache := cache m;
            bm := {| pending := answers; otherwise := oth |};
            ticker_price_socket_conn_key := ticker_price_socket_conn_key m;
            user_socket_conn_key := user_socket_conn_key m;
            journal := journal m ++ attempts_log k attempts errs |}).
Proof.
  induction 1 as [|e errs He _ IH]; intros answers oth attempts budget m Hbm Hbudget.
  - split.
    + intros h tail Hlt -> Hh. cbn in Hlt.
      destruct budget as [|budget]; [lia|].
      rewrite retry_loop_step, bool_decide_eq_true_2 by lia.
      cbn [start_subscription bm emit]. rewrite Hbm. cbn.
      rewrite bool_decide_eq_false_2 by done. cbn.
      f_equal. unfold emit, with_bm. cbn. f_equal. by rewrite <- ?app_assoc.
    + intros Heq. cbn in Heq. cbn in Hbm.
      assert (retry_loop (start_subscription k (S fuel)) budget attempts m
                = Returned CNone m) as ->.
      { destruct budget; cbn [retry_loop]; by rewrite bool_decide_eq_false_2 by lia. }
      destruct m as [c b tk uk j]. cbn in *. subst b. by rewrite app_nil_r.
  - destruct budget as [|budget]; [cbn in *; split; intros; lia|].
    assert (attempts < 20 ->
      retry_loop (start_subscription k (S fuel)) (S budget) attempts m =
        retry_loop (start_subscription k (S fuel)) budget (attempts + 1)
          {| cache := cache m;
             bm := {| pending := (inl <$> errs) ++ answers; otherwise := oth |};
             ticker_price_socket_conn_key := ticker_price_socket_conn_key m;
             user_socket_conn_key := user_socket_conn_key m;
             journal := journal m
               ++ [Log (StartingSocket k); StartSocket k; Log (FailedToConnect attempts)]
               ++ (if bool_decide (attempts = 0) then [Log (Cause e)] else []) |})
      as Hstep.
    { intros Hlt. rewrite retry_loop_step, bool_decide_eq_true_2 by lia.
      cbn [start_subscription bm emit]. rewrite Hbm. cbn. rewrite He.
      f_equal. case_bool_decide; unfold emit, with_bm; cbn; f_equal;
        by rewrite <- !app_assoc. }
    match type of Hstep with _ -> _ = retry_loop _ _ _ ?m1 =>
      destruct (IH answers oth (attempts + 1) budget m1 eq_refl ltac:(lia))
        as [IHhandle IHnone] end.
    cbn [length attempts_log]. split.
    + intros h tail Hlt Hanswers Hh. rewrite Hstep by lia.
      rewrite (IHhandle h tail ltac:(lia) Hanswers Hh). cbn.
      f_equal. unfold emit, with_bm. cbn. f_equal. by rewrite <- ?app_assoc.
    + intros Heq. rewrite Hstep by lia.
      rewrite (IHnone ltac:(lia)). cbn.
      f_equal. unfold emit, with_bm. cbn. f_equal. by rewrite <- ?app_assoc.
Qed.

(** [retry] of a start operation, over a transport that raises the
    [Exception]s [errs] at its next requests. With fewer than 20 of them and
    then a path: [retry] sleeps one second, once, before the first request;
    every request that raised is followed by one warning, numbered from 0,
    and the first of them by its cause; the path of the next request is
    returned. With 20 of them: the same log, [None] is returned and no 21st
    request is made (the answers after them are still pending). *)
Theorem retry_logs_each_failure {F : Type} `{PyFloat F} k fuel errs answers oth
    (m : BinanceStreamManager F scripted) :
  bm m = {| pending := (inl <$> errs) ++ answers; otherwise := oth |} ->
  Forall (fun e => is_exception e = true) errs ->
  (forall h tail,
     length errs < 20 ->
     answers = inr (CPath h) :: tail ->
     h <> EmptyString ->
     retry (start_subscription k (S fuel)) m =
       Returned (CPath h)
         {| cache := cache m;
            bm := {| pending := tail; otherwise := oth |};
            ticker_price_socket_conn_key := ticker_price_socket_conn_key m;
            user_socket_conn_key := user_socket_conn_key m;
            journal := journal m ++ Sleep 1 :: attempts_log k 0 errs
                         ++ [Log (StartingSocket k); StartSocket k] |}) /\
  (length errs = 20 ->
     retry (start_subscription k (S fuel)) m =
       Returned CNone
         {| cache := cache m;
            bm := {| pending := answers; otherwise := oth |};
            ticker_price_socket_conn_key := ticker_price_socket_conn_key m;
            user_socket_conn_key := user_socket_conn_key m;
            journal := journal m ++ Sleep 1 :: attempts_log k 0 errs |}).
Proof.
  intros Hbm Herrs. unfold retry.
  destruct (retry_loop_scripted k fuel errs Herrs answers oth 0 20
              (emit (Sleep (1 + 0 * 5)) m) Hbm ltac:(lia)) as [Hhandle Hnone].
  split.
  - intros h tail Hlt Hanswers Hh. rewrite (Hhandle h tail ltac:(lia) Hanswers Hh).
    cbn. f_equal. unfold emit, with_bm. cbn. f_equal. by rewrite <- ?app_assoc.
  - intros Heq. rewrite (Hnone ltac:(lia)). cbn.
    f_equal. unfold emit, with_bm. cbn. f_equal. by rewrite <- ?app_assoc.
Qed.

(** ** The further properties at work *)

Lemma start_paths_never_replaces_witness :
  let conns := start_paths "wss://stream/" "ws/" ["!ticker@arr"; "key"; "!ticker@arr"] ∅ in
  is_Some (conns !! "key") /\
  _start_socket "wss://stream/" "key" "ws/" conns = (CFalse, conns).
Proof.
  intros conns.
  destruct (start_paths_never_replaces "wss://stream/" "ws/"
              ["!ticker@arr"; "key"; "!ticker@arr"] ∅) as [_ Hheld].
  apply (Hheld "key"). apply (bool_decide_unpack _). vm_compute. exact I.
Defined.

Lemma start_returns_key_or_None_witness :
  _start_ticker_values_socket 1 (fresh willing) = Returned (CPath "!ticker@arr") started /\
  (truthy (CPath "!ticker@arr") = true \/ CPath "!ticker@arr" = CNone) /\
  count (is_start_request Ticker) (journal (fresh willing)) + 1
    <= count (is_start_request Ticker) (journal started).
Proof.
  assert (start_subscription Ticker 1 (fresh willing)
            = Returned (CPath "!ticker@arr") started) as Hrun.
  { vm_compute. reflexivity. }
  split; [exact Hrun|].
  exact (start_returns_key_or_None Ticker 1 (fresh willing) (CPath "!ticker@arr")
           started Hrun).
Defined.

Lemma recovery_that_raises_clears_nothing_witness :
  in_band_error Ticker error_msg /\
  process Ticker 1 error_msg (with_bm refusing holding)
    = Raised (TransportError "refused") unrecovered /\
  cache unrecovered = cache (with_bm refusing holding) /\
  conn_key Ticker unrecovered = conn_key Ticker (with_bm refusing holding) /\
  exists evs,
    journal unrecovered = journal (with_bm refusing holding) ++ evs /\
    count is_stop evs = 1 /\
    count (is_clear Ticker) evs = 0.
Proof.
  split; [reflexivity|]. split; [reflexivity|].
  apply (recovery_that_raises_clears_nothing Ticker 1 error_msg
           (with_bm refusing holding) (TransportError "refused") unrecovered);
    reflexivity.
Defined.

Lemma recovery_stores_key_or_None_witness :
  in_band_error Ticker error_msg /\
  process Ticker 1 error_msg holding = Returned tt recovered /\
  (truthy (conn_key Ticker recovered) = true \/ conn_key Ticker recovered = CNone) /\
  conn_key User recovered = conn_key User holding /\
  orders (cache recovered) = orders (cache holding) /\
  non_existent_tickers (cache recovered) = non_existent_tickers (cache holding) /\
  balances (cache recovered) = balances (cache holding).
Proof.
  split; [reflexivity|]. split; [reflexivity|].
  apply (recovery_stores_key_or_None Ticker 1 error_msg holding recovered);
    reflexivity.
Defined.

Lemma only_errors_reach_the_transport_witness :
  ~ in_band_error User balance_update_msg /\
  bm (final (process User 0 balance_update_msg holding)) = bm holding /\
  ticker_price_socket_conn_key (final (process User 0 balance_update_msg holding))
    = ticker_price_socket_conn_key holding /\
  user_socket_conn_key (final (process User 0 balance_update_msg holding))
    = user_socket_conn_key holding /\
  journal (final (process User 0 balance_update_msg holding))
    = journal holding ++ [Log (UserSocketMessage balance_update_msg)].
Proof.
  assert (~ in_band_error User balance_update_msg) as Hnot.
  { intros (kind & Hkind & Herr). injection Hkind as <-. discriminate Herr. }
  split; [exact Hnot|].
  apply (only_errors_reach_the_transport User 0 balance_update_msg holding Hnot).
Defined.

Lemma ticker_object_is_not_applied_witness :
  is_ticker_error (VObj single_ticker_fields) <> inr true /\
  exists m',
    _process_ticker_values 0 (VObj single_ticker_fields) holding = Raised TypeError m' /\
    cache m' = cache holding /\ journal m' = journal holding.
Proof.
  assert (is_ticker_error (VObj single_ticker_fields) <> inr true) as Hnot.
  { discriminate. }
  split; [exact Hnot|].
  apply (ticker_object_is_not_applied 0 single_ticker_fields holding Hnot).
Defined.

Lemma user_fault_changes_nothing_witness :
  _process_user_socket 0 balance_update_msg (fresh willing)
    = Raised (KeyError (KStr "BTC")) unchanged /\
  (forall kind, getitem balance_update_msg "e" = inr kind ->
     eq_str kind "outboundAccountPosition" = false) /\
  cache unchanged = cache (fresh willing).
Proof.
  assert (forall kind, getitem balance_update_msg "e" = inr kind ->
            eq_str kind "outboundAccountPosition" = false) as Hkind.
  { intros kind Hk. injection Hk as <-. reflexivity. }
  split; [reflexivity|]. split; [exact Hkind|].
  apply (user_fault_changes_nothing 0 balance_update_msg (fresh willing)
           (KeyError (KStr "BTC")) unchanged eq_refl Hkind).
Defined.

Lemma account_position_not_atomic_witness :
  getitem broken_position_msg "e" = inr (VStr "outboundAccountPosition") /\
  getitem broken_position_msg "B"
    = inr (VList ([balance "ETH" "40"] ++ balance "BTC" "much" :: [balance "ADA" "1"])) /\
  Forall2 (reads "a" "f") [balance "ETH" "40"] [(KStr "ETH", 40%Z)] /\
  read_update (F:=Z) "a" "f" (balance "BTC" "much") = inl (ValueError "much") /\
  exists m',
    _process_user_socket 0 broken_position_msg holding = Raised (ValueError "much") m' /\
    balances (cache m') = assign_all [(KStr "ETH", 40%Z)] (balances (cache holding)) /\
    (forall k x, most_recent k [(KStr "ETH", 40%Z)] = Some x ->
       balances (cache m') !! k = Some x).
Proof.
  assert (Forall2 (reads (F:=Z) "a" "f") [balance "ETH" "40"] [(KStr "ETH", 40%Z)]) as Hpre.
  { repeat constructor. }
  split; [reflexivity|]. split; [reflexivity|]. split; [exact Hpre|].
  split; [reflexivity|].
  apply (account_position_not_atomic 0 broken_position_msg [balance "ETH" "40"]
           (balance "BTC" "much") [balance "ADA" "1"] [(KStr "ETH", 40%Z)]
           (ValueError "much") holding eq_refl eq_refl Hpre eq_refl).
Defined.

Lemma update_messages_are_idempotent_witness :
  Forall2 (reads "s" "c") [update "BTC" "12"; update "ETH" "3"]
    [(KStr "BTC", 12%Z); (KStr "ETH", 3%Z)] /\
  exists m1 m2,
    _process_ticker_values 0 (VList [update "BTC" "12"; update "ETH" "3"]) holding
      = Returned tt m1 /\
    _process_ticker_values 0 (VList [update "BTC" "12"; update "ETH" "3"]) m1
      = Returned tt m2 /\
    cache m2 = cache m1.
Proof.
  assert (Forall2 (reads (F:=Z) "s" "c") [update "BTC" "12"; update "ETH" "3"]
            [(KStr "BTC", 12%Z); (KStr "ETH", 3%Z)]) as Hwf.
  { repeat constructor. }
  split; [exact Hwf|].
  destruct (update_messages_are_idempotent 0 [update "BTC" "12"; update "ETH" "3"]
              [(KStr "BTC", 12%Z); (KStr "ETH", 3%Z)] holding) as [Hticker _].
  exact (Hticker Hwf).
Defined.

Lemma balance_update_consumes_the_entry_witness :
  getitem position_msg "e" = inr (VStr "outboundAccountPosition") /\
  getitem position_msg "B" = inr (VList [balance "BTC" "2"; balance "ETH" "40"]) /\
  Forall2 (reads "a" "f") [balance "BTC" "2"; balance "ETH" "40"]
    [(KStr "BTC", 2%Z); (KStr "ETH", 40%Z)] /\
  KStr "BTC" ∈ [(KStr "BTC", 2%Z); (KStr "ETH", 40%Z)].*1 /\
  getitem balance_update_msg "e" = inr (VStr "balanceUpdate") /\
  getitem balance_update_msg "a" = inr (VStr "BTC") /\
  hash_key (VStr "BTC") = inr (KStr "BTC") /\
  exists m1 m2 m3,
    _process_user_socket 0 position_msg (fresh willing) = Returned tt m1 /\
    _process_user_socket 0 balance_update_msg m1 = Returned tt m2 /\
    balances (cache m2) !! KStr "BTC" = None /\
    _process_user_socket 0 balance_update_msg m2 = Raised (KeyError (KStr "BTC")) m3 /\
    balances (cache m3) = balances (cache m2).
Proof.
  assert (Forall2 (reads (F:=Z) "a" "f") [balance "BTC" "2"; balance "ETH" "40"]
            [(KStr "BTC", 2%Z); (KStr "ETH", 40%Z)]) as Hwf.
  { repeat constructor. }
  assert (KStr "BTC" ∈ [(KStr "BTC", 2%Z); (KStr "ETH", 40%Z)].*1) as Hin.
  { apply (bool_decide_unpack _). vm_compute. exact I. }
  split; [reflexivity|]. split; [reflexivity|]. split; [exact Hwf|].
  split; [exact Hin|]. split; [reflexivity|]. split; [reflexivity|].
  split; [reflexivity|].
  apply (balance_update_consumes_the_entry 0 position_msg balance_update_msg
           [balance "BTC" "2"; balance "ETH" "40"]
           [(KStr "BTC", 2%Z); (KStr "ETH", 40%Z)] (VStr "BTC") (KStr "BTC")
           (fresh willing) eq_refl eq_refl Hwf Hin eq_refl eq_refl eq_refl).
Defined.

Lemma orders_last_write_wins_witness :
  Forall2 reports three_reports three_entries /\
  exists m',
    deliver (_process_user_socket 0) three_reports holding = Returned tt m' /\
    orders (cache m') !! KInt 7
      = Some (order_of 7 "FILLED" 6 (report 7 "FILLED" "6")) /\
    orders (cache m') !! KInt 8 = Some (order_of 8 "NEW" 0 (report 8 "NEW" "0")) /\
    orders (cache m') !! KInt 9 = None.
Proof.
  assert (Forall2 (reports (F:=Z)) three_reports three_entries) as Hall.
  { repeat constructor. }
  split; [exact Hall|].
  destruct (orders_last_write_wins 0 three_reports three_entries holding Hall)
    as (m' & Hrun & Horders & _).
  exists m'. split; [exact Hrun|].
  split; [exact (Horders (KInt 7))|].
  split; [exact (Horders (KInt 8))|exact (Horders (KInt 9))].
Defined.

Lemma prices_do_not_survive_an_error_witness :
  in_band_error Ticker error_msg /\
  _process_ticker_values 1 error_msg holding = Returned tt recovered /\
  Forall2 (Forall2 (reads "s" "c")) [[update "ETH" "3"]] [[(KStr "ETH", 3%Z)]] /\
  ticker_values (cache holding) !! KStr "BTC" = Some 9%Z /\
  exists m',
    deliver (_process_ticker_values 1) (error_msg :: (VList <$> [[update "ETH" "3"]])) holding
      = Returned tt m' /\
    ticker_values (cache m') !! KStr "BTC" = None /\
    ticker_values (cache m') !! KStr "ETH" = Some 3%Z.
Proof.
  assert (in_band_error Ticker error_msg) as Herr by reflexivity.
  assert (_process_ticker_values 1 error_msg holding = Returned tt recovered) as Hrun.
  { vm_compute. reflexivity. }
  assert (Forall2 (Forall2 (reads (F:=Z) "s" "c")) [[update "ETH" "3"]]
            [[(KStr "ETH", 3%Z)]]) as Hwf.
  { repeat constructor. }
  split; [exact Herr|]. split; [exact Hrun|]. split; [exact Hwf|].
  split; [reflexivity|].
  destruct (prices_do_not_survive_an_error 1 error_msg [[update "ETH" "3"]]
              [[(KStr "ETH", 3%Z)]] holding recovered Herr Hrun Hwf)
    as (m' & Hdel & Hprices).
  exists m'. split; [exact Hdel|].
  split; [exact (Hprices (KStr "BTC"))|exact (Hprices (KStr "ETH"))].
Defined.

Lemma retry_lets_no_Exception_out_witness :
  retry (start_subscription Ticker 1) (fresh interrupted)
    = Raised KeyboardInterrupt interrupted_retry /\
  is_exception KeyboardInterrupt = false /\
  count is_warning (journal interrupted_retry) = 1.
Proof.
  assert (retry (start_subscription Ticker 1) (fresh interrupted)
            = Raised KeyboardInterrupt interrupted_retry) as Hrun.
  { vm_compute. reflexivity. }
  destruct (retry_lets_no_Exception_out (F:=Z) (start_subscription Ticker 1)
              (fresh interrupted)) as [Hout _].
  split; [exact Hrun|]. split; [exact (Hout _ _ Hrun)|].
  vm_compute. reflexivity.
Defined.

Lemma retry_logs_each_failure_witness :
  bm (fresh thrice_refusing)
    = {| pending := (inl <$> replicate 3 (TransportError "refused"))
                      ++ [inr (CPath "!ticker@arr")];
         otherwise := inr CFalse |} /\
  Forall (fun e => is_exception e = true) (replicate 3 (TransportError "refused")) /\
  length (replicate 3 (TransportError "refused")) < 20 /\
  "!ticker@arr" <> EmptyString /\
  retry (start_subscription Ticker 1) (fresh thrice_refusing) =
    Returned (CPath "!ticker@arr")
      {| cache := empty_cache;
         bm := {| pending := []; otherwise := inr CFalse |};
         ticker_price_socket_conn_key := CNone;
         user_socket_conn_key := CNone;
         journal :=
           [] ++ Sleep 1 :: attempts_log Ticker 0 (replicate 3 (TransportError "refused"))
              ++ [Log (StartingSocket Ticker); StartSocket Ticker] |}.
Proof.
  assert (Forall (fun e => is_exception e = true)
            (replicate 3 (TransportError "refused"))) as Herrs.
  { repeat constructor. }
  assert ("!ticker@arr" <> EmptyString) as Hne by discriminate.
  split; [reflexivity|]. split; [exact Herrs|]. split; [cbn; lia|]. split; [exact Hne|].
  destruct (retry_logs_each_failure (F:=Z) Ticker 0
              (replicate 3 (TransportError "refused")) [inr (CPath "!ticker@arr")]
              (inr CFalse) (fresh thrice_refusing) eq_refl Herrs) as [Hhandle _].
  apply (Hhandle "!ticker@arr" []); [cbn; lia|reflexivity|exact Hne].
Defined.

Lemma init_starts_ticker_then_user_witness :
  start_socket Ticker willing = (inr (CPath "!ticker@arr"), willing) /\
  truthy (CPath "!ticker@arr") = true /\
  __init__ 1 (empty_cache (F:=Z)) willing =
    Returned tt
      {| cache := empty_cache; bm := bm_start willing;
         ticker_price_socket_conn_key := CPath "!ticker@arr";
         user_socket_conn_key := CPath "!ticker@arr";
         journal := [Log (StartingSocket Ticker); StartSocket Ticker;
                     Log (StartingSocket User); StartSocket User] |} /\
  __init__ 2 empty_cache hopeless = Returned tt constructed /\
  ticker_price_socket_conn_key constructed = CNone /\
  user_socket_conn_key constructed = CNone /\
  cache constructed = empty_cache.
Proof.
  assert (__init__ 2 empty_cache hopeless = Returned tt constructed) as Hrun.
  { vm_compute. reflexivity. }
  destruct (init_starts_ticker_then_user (F:=Z) 0 empty_cache willing)
    as (Hboth & _).
  destruct (init_starts_ticker_then_user (F:=Z) 2 empty_cache hopeless)
    as (_ & _ & _ & Hany).
  destruct (Hany constructed Hrun) as (Hcache & _).
  split; [reflexivity|]. split; [reflexivity|].
  split; [apply (Hboth _ willing _ willing); reflexivity|].
  split; [exact Hrun|]. split; [vm_compute; reflexivity|].
  split; [vm_compute; reflexivity|exact Hcache].
Defined.
